(** * FT6x36 capacitive touch driver (lvgl_touch/ft6x36.c)

    A shallow embedding of the three entry points of the driver,
    [ft6x36_get_gesture_id], [ft6x06_init] and [ft6x36_read], as programs of
    a small state monad over the driver's file-scope variables.  Everything
    the driver calls but does not define (the I2C manager, the FreeRTOS
    queue API, the ESP logger) is recorded as an event on a trace, with the
    arguments of the call; what the bus answers and whether a queue can be
    allocated is read from a [platform]. *)

From Stdlib Require Import ZArith List String Bool Lia.
From Stdlib Require Import Strings.Byte.
Import ListNotations.
Local Open Scope Z_scope.

(** ** Machine integers *)

(** Value of a [uint8_t] buffer cell once promoted to [int]. *)
Definition u8 (b : byte) : Z := Z.of_N (Byte.to_N b).

(** Conversion of an [int] to [uint8_t]. *)
Definition to_uint8 (z : Z) : Z := z mod 256.

(** Conversion of an [int] to [int16_t] (two's complement wrap-around). *)
Definition to_int16 (z : Z) : Z := (z + 32768) mod 65536 - 32768.

(** ** Types of the headers *)

(** [lv_indev_state_t] of LVGL. *)
Inductive lv_indev_state_t := LV_INDEV_STATE_REL | LV_INDEV_STATE_PR.

Definition lv_indev_state_eqb (a b : lv_indev_state_t) : bool :=
  match a, b with
  | LV_INDEV_STATE_REL, LV_INDEV_STATE_REL => true
  | LV_INDEV_STATE_PR, LV_INDEV_STATE_PR => true
  | _, _ => false
  end.

(** [ft6x36_status_t]. *)
Record ft6x36_status_t := { inited : bool }.

(** [ft6x36_touch_t]: two [int16_t] coordinates and the input state. *)
Record ft6x36_touch_t := {
  last_x : Z;
  last_y : Z;
  current_state : lv_indev_state_t
}.

(** The members of [lv_indev_data_t] the driver writes: [point.x], [point.y]
    and [state].  The other members are never accessed by this file. *)
Record lv_indev_data_t := {
  point_x : Z;
  point_y : Z;
  state : lv_indev_state_t
}.

Definition esp_err_t := Z.
Definition ESP_OK : esp_err_t := 0.

(** A FreeRTOS queue handle; [None] is [NULL]. *)
Definition QueueHandle_t := option nat.

(** ** Constants *)

(** Modelled from the spec: ft6x36.h, which defines the two coordinate masks,
    is not part of the sources at hand.  The coordinates are "4-bit high
    nibble + 8-bit low byte, masked". *)
Definition FT6X36_MSB_MASK : Z := 0x0F.
Definition FT6X36_LSB_MASK : Z := 0xFF.

Definition FT6X36_TOUCH_QUEUE_ELEMENTS : Z := 1.

(** Register offsets of ft6x36.h, taken as parameters. *)
Record ft6x36_regs := {
  FT6X36_GEST_ID_REG : Z;
  FT6X36_TD_STAT_REG : Z;
  FT6X36_PANEL_ID_REG : Z;
  FT6X36_CHIPSELECT_REG : Z;
  FT6X36_DEV_MODE_REG : Z;
  FT6X36_FIRMWARE_ID_REG : Z;
  FT6X36_RELEASECODE_REG : Z
}.

(** Build configuration: the [CONFIG_*] switches tested by [#if], the touch
    bus port and the display resolution used by the inversions. *)
Record config := {
  regs : ft6x36_regs;
  CONFIG_LV_I2C_TOUCH_PORT : Z;
  CONFIG_LV_FT6X36_COORDINATES_QUEUE : bool;
  CONFIG_LV_FT6X36_SWAPXY : bool;
  CONFIG_LV_FT6X36_INVERT_X : bool;
  CONFIG_LV_FT6X36_INVERT_Y : bool;
  LV_HOR_RES : Z;
  LV_VER_RES : Z
}.

(** ** The outside world *)

Record i2c_request := {
  req_port : Z;
  req_slave_addr : Z;
  req_register_addr : Z;
  req_size : nat
}.

(** Outcome of one [lvgl_i2c_read]: the status code, and the contents of the
    caller's buffer after the call.  The buffers of the driver are
    uninitialised locals, so after a failed read [reply_buf] is whatever the
    buffer then holds. *)
Record i2c_reply := {
  reply_err : esp_err_t;
  reply_buf : list byte
}.

Record platform := {
  (** answer of the bus to the [n]-th read since start-up *)
  i2c_bus : nat -> i2c_request -> i2c_reply;
  (** whether the [n]-th [xQueueCreate] since start-up finds memory *)
  xQueueCreate_ok : nat -> bool
}.

Inductive log_level := LOG_E | LOG_I | LOG_V.

Inductive event :=
| EvLog (lvl : log_level) (fmt : string) (args : list Z)
| EvI2CRead (rq : i2c_request)
| EvQueueCreate (length : Z)
| EvQueueSend (h : QueueHandle_t) (item : ft6x36_touch_t) (ticks : Z)
| EvQueueOverwrite (h : QueueHandle_t) (item : ft6x36_touch_t).

(** The file-scope variables of ft6x36.c. *)
Record statics := {
  ft6x36_status : ft6x36_status_t;
  current_dev_addr : Z;
  touch_inputs : ft6x36_touch_t;
  ft6x36_touch_queue_handle : QueueHandle_t
}.

Record world := {
  vars : statics;
  i2c_calls : nat;
  queue_calls : nat;
  trace : list event
}.

(** Values of the statics when the program is loaded: zero-initialised,
    except [touch_inputs = { -1, -1, LV_INDEV_STATE_REL }]. *)
Definition sentinel_touch : ft6x36_touch_t :=
  {| last_x := -1; last_y := -1; current_state := LV_INDEV_STATE_REL |}.

Definition statics_at_boot : statics :=
  {| ft6x36_status := {| inited := false |};
     current_dev_addr := 0;
     touch_inputs := sentinel_touch;
     ft6x36_touch_queue_handle := None |}.

Definition boot : world :=
  {| vars := statics_at_boot; i2c_calls := 0; queue_calls := 0; trace := [] |}.

(** ** The monad *)

Definition M (A : Type) : Type := world -> A * world.

Definition ret {A} (a : A) : M A := fun w => (a, w).

Definition bind {A B} (m : M A) (f : A -> M B) : M B :=
  fun w => let (a, w') := m w in f a w'.

Declare Scope drv_scope.
Delimit Scope drv_scope with drv.
Notation "x <- m ;; k" := (bind m (fun x => k))
  (at level 61, m at next level, right associativity) : drv_scope.
Notation "m ;; k" := (bind m (fun _ => k))
  (at level 61, right associativity) : drv_scope.
Local Open Scope drv_scope.

Definition gets {A} (f : statics -> A) : M A := fun w => (f (vars w), w).

Definition modify (f : statics -> statics) : M unit :=
  fun w => (tt, {| vars := f (vars w); i2c_calls := i2c_calls w;
                   queue_calls := queue_calls w; trace := trace w |}).

Definition emit (e : event) : M unit :=
  fun w => (tt, {| vars := vars w; i2c_calls := i2c_calls w;
                   queue_calls := queue_calls w; trace := trace w ++ [e] |}).

Definition when (c : bool) (m : M unit) : M unit := if c then m else ret tt.

(** Assignments to the statics. *)
Definition set_inited (b : bool) : M unit :=
  modify (fun s => {| ft6x36_status := {| inited := b |};
                      current_dev_addr := current_dev_addr s;
                      touch_inputs := touch_inputs s;
                      ft6x36_touch_queue_handle := ft6x36_touch_queue_handle s |}).

Definition set_current_dev_addr (a : Z) : M unit :=
  modify (fun s => {| ft6x36_status := ft6x36_status s;
                      current_dev_addr := a;
                      touch_inputs := touch_inputs s;
                      ft6x36_touch_queue_handle := ft6x36_touch_queue_handle s |}).

Definition set_touch_inputs (t : ft6x36_touch_t) : M unit :=
  modify (fun s => {| ft6x36_status := ft6x36_status s;
                      current_dev_addr := current_dev_addr s;
                      touch_inputs := t;
                      ft6x36_touch_queue_handle := ft6x36_touch_queue_handle s |}).

Definition set_queue_handle (h : QueueHandle_t) : M unit :=
  modify (fun s => {| ft6x36_status := ft6x36_status s;
                      current_dev_addr := current_dev_addr s;
                      touch_inputs := touch_inputs s;
                      ft6x36_touch_queue_handle := h |}).

Definition set_current_state (st : lv_indev_state_t) : M unit :=
  t <- gets touch_inputs ;;
  set_touch_inputs {| last_x := last_x t; last_y := last_y t; current_state := st |}.

Definition set_last_x (x : Z) : M unit :=
  t <- gets touch_inputs ;;
  set_touch_inputs {| last_x := x; last_y := last_y t;
                      current_state := current_state t |}.

Definition set_last_y (y : Z) : M unit :=
  t <- gets touch_inputs ;;
  set_touch_inputs {| last_x := last_x t; last_y := y;
                      current_state := current_state t |}.

(** ** External calls *)

Definition ESP_LOGE (fmt : string) (args : list Z) : M unit := emit (EvLog LOG_E fmt args).
Definition ESP_LOGI (fmt : string) (args : list Z) : M unit := emit (EvLog LOG_I fmt args).
Definition ESP_LOGV (fmt : string) (args : list Z) : M unit := emit (EvLog LOG_V fmt args).

Section Driver.

Variable P : platform.
Variable cfg : config.

(** [lvgl_i2c_read(port, addr, reg, buffer, size)]: returns the status and
    the buffer after the call. *)
Definition lvgl_i2c_read (port addr reg : Z) (size : nat) : M (esp_err_t * list byte) :=
  fun w =>
    let rq := {| req_port := port; req_slave_addr := addr;
                 req_register_addr := reg; req_size := size |} in
    let r := i2c_bus P (i2c_calls w) rq in
    ((reply_err r, reply_buf r),
     {| vars := vars w; i2c_calls := S (i2c_calls w);
        queue_calls := queue_calls w; trace := trace w ++ [EvI2CRead rq] |}).

(** [xQueueCreate(length, item size)]: a fresh handle, or [NULL]. *)
Definition xQueueCreate (length : Z) : M QueueHandle_t :=
  fun w =>
    ((if xQueueCreate_ok P (queue_calls w) then Some (queue_calls w) else None),
     {| vars := vars w; i2c_calls := i2c_calls w;
        queue_calls := S (queue_calls w); trace := trace w ++ [EvQueueCreate length] |}).

(** [xQueueSend] and [xQueueOverwrite] are recorded with the handle and the
    item as the driver passes them, a [NULL] handle included; what the
    kernel then does with the item is not the driver's. *)
Definition xQueueSend (h : QueueHandle_t) (item : ft6x36_touch_t) (ticks : Z) : M unit :=
  emit (EvQueueSend h item ticks).

Definition xQueueOverwrite (h : QueueHandle_t) (item : ft6x36_touch_t) : M unit :=
  emit (EvQueueOverwrite h item).

(** ** The driver *)

(** [data_buf[i]] *)
Definition cell (buf : list byte) (i : nat) : byte := nth i buf x00.

(** [static esp_err_t ft6x06_i2c_read8(uint8_t slave_addr, uint8_t register_addr,
    uint8_t *data_buf)] *)
Definition ft6x06_i2c_read8 (slave_addr register_addr : Z) : M (esp_err_t * list byte) :=
  lvgl_i2c_read (CONFIG_LV_I2C_TOUCH_PORT cfg)
                (to_uint8 slave_addr) (to_uint8 register_addr) 1.

(** The value [ret] receives in [ret = f(...) != ESP_OK]: the comparison
    binds tighter than the assignment. *)
Definition ne_ok (e : esp_err_t) : Z := if e =? ESP_OK then 0 else 1.

(** [uint8_t ft6x36_get_gesture_id()] *)
Definition ft6x36_get_gesture_id : M byte :=
  ini <- gets (fun s => inited (ft6x36_status s)) ;;
  if negb ini then
    ESP_LOGE "Init first!" [] ;;
    ret x00
  else
    addr <- gets current_dev_addr ;;
    r <- ft6x06_i2c_read8 addr (FT6X36_GEST_ID_REG (regs cfg)) ;;
    let data_buf := cell (snd r) 0 in
    let ret_ := ne_ok (fst r) in
    when (negb (ret_ =? 0))
         (ESP_LOGE "Error reading from device: %s" [ret_]) ;;
    ret data_buf.

(** [void ft6x06_init(uint16_t dev_addr)] *)
Definition ft6x06_init (dev_addr : Z) : M unit :=
  set_inited true ;;
  set_current_dev_addr (to_uint8 dev_addr) ;;
  ESP_LOGI "Found touch panel controller" [] ;;
  r <- ft6x06_i2c_read8 dev_addr (FT6X36_PANEL_ID_REG (regs cfg)) ;;
  let ret_ := ne_ok (fst r) in
  when (negb (ret_ =? 0))
       (ESP_LOGE "Error reading from device: %s" [ret_]) ;;
  ESP_LOGI "\tDevice ID: 0x%02x" [u8 (cell (snd r) 0)] ;;
  r <- ft6x06_i2c_read8 dev_addr (FT6X36_CHIPSELECT_REG (regs cfg)) ;;
  ESP_LOGI "\tChip ID: 0x%02x" [u8 (cell (snd r) 0)] ;;
  r <- ft6x06_i2c_read8 dev_addr (FT6X36_DEV_MODE_REG (regs cfg)) ;;
  ESP_LOGI "\tDevice mode: 0x%02x" [u8 (cell (snd r) 0)] ;;
  r <- ft6x06_i2c_read8 dev_addr (FT6X36_FIRMWARE_ID_REG (regs cfg)) ;;
  ESP_LOGI "\tFirmware ID: 0x%02x" [u8 (cell (snd r) 0)] ;;
  r <- ft6x06_i2c_read8 dev_addr (FT6X36_RELEASECODE_REG (regs cfg)) ;;
  ESP_LOGI "\tRelease code: 0x%02x" [u8 (cell (snd r) 0)] ;;
  if CONFIG_LV_FT6X36_COORDINATES_QUEUE cfg then
    h <- xQueueCreate FT6X36_TOUCH_QUEUE_ELEMENTS ;;
    set_queue_handle h ;;
    match h with
    | None => ESP_LOGE "\tError creating touch input FreeRTOS queue" []
    | Some _ =>
        t <- gets touch_inputs ;;
        xQueueSend h t 0
    end
  else ret tt.

(** [data->point.x = touch_inputs.last_x; data->point.y = touch_inputs.last_y;
    data->state = touch_inputs.current_state;] *)
Definition store_data : M lv_indev_data_t :=
  t <- gets touch_inputs ;;
  ret {| point_x := last_x t; point_y := last_y t; state := current_state t |}.

(** [xQueueOverwrite( ft6x36_touch_queue_handle, &touch_inputs )], compiled
    in under [CONFIG_LV_FT6X36_COORDINATES_QUEUE]. *)
Definition publish_touch_inputs : M unit :=
  when (CONFIG_LV_FT6X36_COORDINATES_QUEUE cfg)
       (h <- gets ft6x36_touch_queue_handle ;;
        t <- gets touch_inputs ;;
        xQueueOverwrite h t).

(** [bool ft6x36_read(lv_indev_drv_t *drv, lv_indev_data_t *data)]: the
    result is the returned flag and the contents of [*data] on return. *)
Definition ft6x36_read (data : lv_indev_data_t) : M (bool * lv_indev_data_t) :=
  ini <- gets (fun s => inited (ft6x36_status s)) ;;
  if negb ini then
    ESP_LOGE "Init first!" [] ;;
    ret (false, data)
  else
    addr <- gets current_dev_addr ;;
    r <- lvgl_i2c_read (CONFIG_LV_I2C_TOUCH_PORT cfg) addr
                       (FT6X36_TD_STAT_REG (regs cfg)) 5 ;;
    let ret_ := fst r in
    let data_buf := snd r in
    when (negb (ret_ =? ESP_OK))
         (ESP_LOGE "Error talking to touch IC: %s" [ret_]) ;;
    let touch_pnt_cnt := u8 (cell data_buf 0) in
    if negb (ret_ =? ESP_OK) || negb (touch_pnt_cnt =? 1) then
      cur <- gets (fun s => current_state (touch_inputs s)) ;;
      when (negb (lv_indev_state_eqb cur LV_INDEV_STATE_REL))
           (set_current_state LV_INDEV_STATE_REL ;;
            publish_touch_inputs) ;;
      data' <- store_data ;;
      ret (false, data')
    else
      set_current_state LV_INDEV_STATE_PR ;;
      set_last_x (to_int16 (Z.lor (Z.shiftl (Z.land (u8 (cell data_buf 1)) FT6X36_MSB_MASK) 8)
                                  (Z.land (u8 (cell data_buf 2)) FT6X36_LSB_MASK))) ;;
      set_last_y (to_int16 (Z.lor (Z.shiftl (Z.land (u8 (cell data_buf 3)) FT6X36_MSB_MASK) 8)
                                  (Z.land (u8 (cell data_buf 4)) FT6X36_LSB_MASK))) ;;
      when (CONFIG_LV_FT6X36_SWAPXY cfg)
           (swap_buf <- gets (fun s => last_x (touch_inputs s)) ;;
            y <- gets (fun s => last_y (touch_inputs s)) ;;
            set_last_x y ;;
            set_last_y swap_buf) ;;
      when (CONFIG_LV_FT6X36_INVERT_X cfg)
           (x <- gets (fun s => last_x (touch_inputs s)) ;;
            set_last_x (to_int16 (LV_HOR_RES cfg - x))) ;;
      when (CONFIG_LV_FT6X36_INVERT_Y cfg)
           (y <- gets (fun s => last_y (touch_inputs s)) ;;
            set_last_y (to_int16 (LV_VER_RES cfg - y))) ;;
      data' <- store_data ;;
      ESP_LOGV "X=%u Y=%u" [point_x data'; point_y data'] ;;
      publish_touch_inputs ;;
      ret (false, data').

(** [n] successive polls by the input framework, each on the output
    structure the previous one left; the outputs are collected in order. *)
Fixpoint poll (n : nat) (data : lv_indev_data_t) : M (list lv_indev_data_t) :=
  match n with
  | O => ret []
  | S n' =>
      r <- ft6x36_read data ;;
      rest <- poll n' (snd r) ;;
      ret (snd r :: rest)
  end.

End Driver.

(** ** Observations *)

Definition is_bus_read (e : event) : bool :=
  match e with EvI2CRead _ => true | _ => false end.

Definition is_publish (e : event) : bool :=
  match e with
  | EvQueueSend _ _ _ | EvQueueOverwrite _ _ => true
  | _ => false
  end.

Definition is_error_log (e : event) : bool :=
  match e with EvLog LOG_E _ _ => true | _ => false end.

(** What reached the bus, the notification channel and the error log. *)
Definition bus_reads (tr : list event) : list event := filter is_bus_read tr.
Definition publishes (tr : list event) : list event := filter is_publish tr.
Definition error_logs (tr : list event) : list event := filter is_error_log tr.

Definition initialized (w : world) : Prop :=
  inited (ft6x36_status (vars w)) = true.

(** The request [ft6x36_read] puts on the bus, and the answer the platform
    has for it at the current point in time. *)
Definition touch_request (cfg : config) (w : world) : i2c_request :=
  {| req_port := CONFIG_LV_I2C_TOUCH_PORT cfg;
     req_slave_addr := current_dev_addr (vars w);
     req_register_addr := FT6X36_TD_STAT_REG (regs cfg);
     req_size := 5 |}.

(** The request [ft6x36_get_gesture_id] puts on the bus. *)
Definition gesture_request (cfg : config) (w : world) : i2c_request :=
  {| req_port := CONFIG_LV_I2C_TOUCH_PORT cfg;
     req_slave_addr := to_uint8 (current_dev_addr (vars w));
     req_register_addr := to_uint8 (FT6X36_GEST_ID_REG (regs cfg));
     req_size := 1 |}.

Definition touch_reply (P : platform) (cfg : config) (w : world) : i2c_reply :=
  i2c_bus P (i2c_calls w) (touch_request cfg w).

(** A reply that reports exactly one touch point on a successful read. *)
Definition single_touch (r : i2c_reply) : bool :=
  (reply_err r =? ESP_OK) && (u8 (cell (reply_buf r) 0) =? 1).

(** The sample as the output structure shows it. *)
Definition as_data (t : ft6x36_touch_t) : lv_indev_data_t :=
  {| point_x := last_x t; point_y := last_y t; state := current_state t |}.

Definition released (t : ft6x36_touch_t) : ft6x36_touch_t :=
  {| last_x := last_x t; last_y := last_y t; current_state := LV_INDEV_STATE_REL |}.

(** The error line of [ft6x36_read] after a failed bus read. *)
Definition bus_error_log (r : i2c_reply) : list event :=
  if reply_err r =? ESP_OK then []
  else [EvLog LOG_E "Error talking to touch IC: %s" [reply_err r]].

(** The coordinate formula of the spec, on unbounded integers:
    [((hi & mask_msb) << 8) | (lo & mask_lsb)]. *)
Definition coord_formula (hi lo : byte) : Z :=
  Z.lor (Z.shiftl (Z.land (u8 hi) FT6X36_MSB_MASK) 8) (Z.land (u8 lo) FT6X36_LSB_MASK).

(** The orientation transforms in the spec's words: swap X/Y, then invert X
    as [horizontal_resolution - X], then invert Y as
    [vertical_resolution - Y], each if enabled. *)
Definition oriented (cfg : config) (xy : Z * Z) : Z * Z :=
  let xy1 := if CONFIG_LV_FT6X36_SWAPXY cfg then (snd xy, fst xy) else xy in
  let xy2 := if CONFIG_LV_FT6X36_INVERT_X cfg
             then (to_int16 (LV_HOR_RES cfg - fst xy1), snd xy1) else xy1 in
  if CONFIG_LV_FT6X36_INVERT_Y cfg
  then (fst xy2, to_int16 (LV_VER_RES cfg - snd xy2)) else xy2.

(** The Pressed sample a five-byte buffer stands for under [cfg]. *)
Definition pressed_sample (cfg : config) (buf : list byte) : ft6x36_touch_t :=
  let xy := oriented cfg (coord_formula (cell buf 1) (cell buf 2),
                          coord_formula (cell buf 3) (cell buf 4)) in
  {| last_x := fst xy; last_y := snd xy; current_state := LV_INDEV_STATE_PR |}.

Definition with_touch_inputs (s : statics) (t : ft6x36_touch_t) : statics :=
  {| ft6x36_status := ft6x36_status s;
     current_dev_addr := current_dev_addr s;
     touch_inputs := t;
     ft6x36_touch_queue_handle := ft6x36_touch_queue_handle s |}.

(** What a poll without a valid single touch sends to the channel: the
    Released sample if the stored state was Pressed and the queue is compiled
    in, nothing otherwise. *)
Definition release_publish (cfg : config) (s : statics) : list event :=
  match current_state (touch_inputs s) with
  | LV_INDEV_STATE_PR =>
      if CONFIG_LV_FT6X36_COORDINATES_QUEUE cfg
      then [EvQueueOverwrite (ft6x36_touch_queue_handle s) (released (touch_inputs s))]
      else []
  | LV_INDEV_STATE_REL => []
  end.

(** The answer of the bus to the [k]-th of a run of polls starting in [w]. *)
Definition nth_touch_reply (P : platform) (cfg : config) (w : world) (k : nat) : i2c_reply :=
  i2c_bus P (i2c_calls w + k)%nat (touch_request cfg w).

(** The request of a diagnostic read of [ft6x06_init]. *)
Definition diag_request (cfg : config) (dev_addr reg : Z) : i2c_request :=
  {| req_port := CONFIG_LV_I2C_TOUCH_PORT cfg;
     req_slave_addr := to_uint8 dev_addr;
     req_register_addr := to_uint8 reg;
     req_size := 1 |}.

(** The five diagnostic registers, in the order [ft6x06_init] reads them. *)
Definition diag_registers (cfg : config) : list Z :=
  [FT6X36_PANEL_ID_REG (regs cfg); FT6X36_CHIPSELECT_REG (regs cfg);
   FT6X36_DEV_MODE_REG (regs cfg); FT6X36_FIRMWARE_ID_REG (regs cfg);
   FT6X36_RELEASECODE_REG (regs cfg)].

(** The error line that reports a failed register read. *)
Definition is_read_error (e : event) : bool :=
  match e with
  | EvLog LOG_E fmt _ => String.eqb fmt "Error reading from device: %s"
  | _ => false
  end.

Definition read_errors (tr : list event) : list event := filter is_read_error tr.

(** ** Example platform and configuration used by the concrete checks *)

Definition example_regs : ft6x36_regs :=
  {| FT6X36_GEST_ID_REG := 0x01; FT6X36_TD_STAT_REG := 0x02;
     FT6X36_PANEL_ID_REG := 0xA8; FT6X36_CHIPSELECT_REG := 0xA3;
     FT6X36_DEV_MODE_REG := 0x00; FT6X36_FIRMWARE_ID_REG := 0xA6;
     FT6X36_RELEASECODE_REG := 0xAF |}.

(** 320x240 panel; [q] compiles the queue in, [sw], [ix], [iy] are the
    orientation switches. *)
Definition example_cfg (q sw ix iy : bool) : config :=
  {| regs := example_regs; CONFIG_LV_I2C_TOUCH_PORT := 0;
     CONFIG_LV_FT6X36_COORDINATES_QUEUE := q;
     CONFIG_LV_FT6X36_SWAPXY := sw;
     CONFIG_LV_FT6X36_INVERT_X := ix;
     CONFIG_LV_FT6X36_INVERT_Y := iy;
     LV_HOR_RES := 320; LV_VER_RES := 240 |}.

(** A bus that answers every read with the same reply, and a heap that
    always has room for a queue. *)
Definition constant_bus (r : i2c_reply) : platform :=
  {| i2c_bus := fun _ _ => r; xQueueCreate_ok := fun _ => true |}.

Definition ok_reply (buf : list byte) : i2c_reply :=
  {| reply_err := ESP_OK; reply_buf := buf |}.

(** [ESP_FAIL] is -1. *)
Definition failed_reply (buf : list byte) : i2c_reply :=
  {| reply_err := -1; reply_buf := buf |}.

(** A bus whose first [n] reads succeed and whose later reads all fail. *)
Definition bus_ok_until (n : nat) (buf : list byte) : platform :=
  {| i2c_bus := fun k _ => if (k <? n)%nat then ok_reply buf else failed_reply buf;
     xQueueCreate_ok := fun _ => true |}.

(** An initialised driver with the given sample stored. *)
Definition running (t : ft6x36_touch_t) (h : QueueHandle_t) : world :=
  {| vars := {| ft6x36_status := {| inited := true |};
                current_dev_addr := 0x38;
                touch_inputs := t;
                ft6x36_touch_queue_handle := h |};
     i2c_calls := 5; queue_calls := 1; trace := [] |}.

(** ** Sequences of calls made by the application *)

(** One call of a public entry point of the driver. *)
Inductive call :=
| CallInit (dev_addr : Z)
| CallRead (data : lv_indev_data_t)
| CallGestureId.

Definition is_init (c : call) : bool :=
  match c with CallInit _ => true | _ => false end.

(** The world after one call. *)
Definition exec (P : platform) (cfg : config) (c : call) (w : world) : world :=
  match c with
  | CallInit dev_addr => snd (ft6x06_init P cfg dev_addr w)
  | CallRead data => snd (ft6x36_read P cfg data w)
  | CallGestureId => snd (ft6x36_get_gesture_id P cfg w)
  end.

(** The world after a sequence of calls, first call first. *)
Definition exec_all (P : platform) (cfg : config) (cs : list call) (w : world) : world :=
  fold_left (fun w c => exec P cfg c w) cs w.

(** Any use of the FreeRTOS queue API. *)
Definition is_queue_api (e : event) : bool :=
  match e with
  | EvQueueCreate _ | EvQueueSend _ _ _ | EvQueueOverwrite _ _ => true
  | _ => false
  end.

Definition queue_traffic (tr : list event) : list event := filter is_queue_api tr.

(** The queues the driver asked FreeRTOS for. *)
Definition is_queue_create (e : event) : bool :=
  match e with EvQueueCreate _ => true | _ => false end.

Definition queues_created (tr : list event) : list event := filter is_queue_create tr.

(** The queue and the item of a publish. *)
Definition published (e : event) : option (QueueHandle_t * ft6x36_touch_t) :=
  match e with
  | EvQueueSend h item _ | EvQueueOverwrite h item => Some (h, item)
  | _ => None
  end.

(** The most recent publish on the trace, if any. *)
Definition last_published (tr : list event) : option (QueueHandle_t * ft6x36_touch_t) :=
  match rev (publishes tr) with
  | e :: _ => published e
  | [] => None
  end.

(** The values an [int16_t] can hold. *)
Definition int16_range (z : Z) : Prop := -32768 <= z < 32768.

(** The queue handle [ft6x06_init] leaves behind, and what it sends. *)
Definition init_handle (P : platform) (cfg : config) (w : world) : QueueHandle_t :=
  if CONFIG_LV_FT6X36_COORDINATES_QUEUE cfg
  then (if xQueueCreate_ok P (queue_calls w) then Some (queue_calls w) else None)
  else ft6x36_touch_queue_handle (vars w).

Definition init_publish (P : platform) (cfg : config) (w : world) : list event :=
  if CONFIG_LV_FT6X36_COORDINATES_QUEUE cfg
  then (if xQueueCreate_ok P (queue_calls w)
        then [EvQueueSend (Some (queue_calls w)) (touch_inputs (vars w)) 0]
        else [])
  else [].

(** The sample [ft6x36_read] leaves in [touch_inputs], and what it sends to
    the channel, both read off the world it starts in. *)
Definition read_touch (P : platform) (cfg : config) (w : world) : ft6x36_touch_t :=
  if inited (ft6x36_status (vars w))
  then (if single_touch (touch_reply P cfg w)
        then pressed_sample cfg (reply_buf (touch_reply P cfg w))
        else released (touch_inputs (vars w)))
  else touch_inputs (vars w).

Definition read_publish (P : platform) (cfg : config) (w : world) : list event :=
  if inited (ft6x36_status (vars w))
  then (if single_touch (touch_reply P cfg w)
        then (if CONFIG_LV_FT6X36_COORDINATES_QUEUE cfg
              then [EvQueueOverwrite (ft6x36_touch_queue_handle (vars w))
                      (pressed_sample cfg (reply_buf (touch_reply P cfg w)))]
              else [])
        else release_publish cfg (vars w))
  else [].

(** A heap with no room for a queue, behind a bus that always answers [r]. *)
Definition no_heap_bus (r : i2c_reply) : platform :=
  {| i2c_bus := fun _ _ => r; xQueueCreate_ok := fun _ => false |}.

(** * Properties *)

Ltac step :=
  unfold ft6x36_read, ft6x36_get_gesture_id, ft6x06_init, ft6x06_i2c_read8,
    store_data, publish_touch_inputs, set_current_state, set_last_x, set_last_y,
    set_touch_inputs, set_queue_handle, set_current_dev_addr, set_inited,
    xQueueOverwrite, xQueueSend, xQueueCreate, lvgl_i2c_read,
    ESP_LOGE, ESP_LOGI, ESP_LOGV, when, emit, modify, gets, bind, ret.

Ltac calc :=
  cbn -[Z.eqb Z.lor Z.land Z.shiftl Z.sub Z.modulo u8 cell to_int16 to_uint8
        ESP_OK FT6X36_MSB_MASK FT6X36_LSB_MASK].

Lemma filter_snoc {A} (f : A -> bool) (l : list A) (a : A) :
  filter f (l ++ [a]) = filter f l ++ (if f a then [a] else []).
Proof. rewrite filter_app. reflexivity. Qed.

(** [running] is the driver as [ft6x06_init] leaves it after start-up. *)
Example init_from_boot_is_running :
  let w := snd (ft6x06_init (constant_bus (ok_reply [x11]))
                            (example_cfg true false false false) 0x38 boot) in
  vars w = vars (running sentinel_touch (Some 0%nat)) /\
  i2c_calls w = i2c_calls (running sentinel_touch (Some 0%nat)) /\
  queue_calls w = queue_calls (running sentinel_touch (Some 0%nat)).
Proof. cbv zeta. repeat split; vm_compute; reflexivity. Qed.

Section Uninitialised.

Variable P : platform.
Variable cfg : config.

(** Both accessors, called before [ft6x06_init], only log. *)
Lemma get_gesture_id_uninit (w : world) :
  inited (ft6x36_status (vars w)) = false ->
  ft6x36_get_gesture_id P cfg w =
    (x00, {| vars := vars w; i2c_calls := i2c_calls w; queue_calls := queue_calls w;
             trace := trace w ++ [EvLog LOG_E "Init first!" []] |}).
Proof. intros H. step. rewrite H. reflexivity. Qed.

Lemma read_uninit (data : lv_indev_data_t) (w : world) :
  inited (ft6x36_status (vars w)) = false ->
  ft6x36_read P cfg data w =
    ((false, data),
     {| vars := vars w; i2c_calls := i2c_calls w; queue_calls := queue_calls w;
        trace := trace w ++ [EvLog LOG_E "Init first!" []] |}).
Proof. intros H. step. rewrite H. reflexivity. Qed.

End Uninitialised.

(** ** Machine-integer facts *)

Lemma u8_range (b : byte) : 0 <= u8 b < 256.
Proof.
  unfold u8. pose proof (Byte.to_N_bounded b) as Hb.
  split; [apply N2Z.is_nonneg | lia].
Qed.

Lemma log2_below (z n : Z) : 0 < n -> 0 <= z < 2 ^ n -> Z.log2 z < n.
Proof.
  intros Hn [H0 H1]. destruct (Z.eq_dec z 0) as [-> | Hz].
  - cbn. lia.
  - apply Z.log2_lt_pow2; lia.
Qed.

Lemma lor_below (a b n : Z) :
  0 < n -> 0 <= a < 2 ^ n -> 0 <= b < 2 ^ n -> 0 <= Z.lor a b < 2 ^ n.
Proof.
  intros Hn Ha Hb.
  assert (H0 : 0 <= Z.lor a b) by (apply Z.lor_nonneg; lia).
  split; [exact H0 | ].
  destruct (Z.eq_dec (Z.lor a b) 0) as [-> | Hz]; [lia | ].
  apply Z.log2_lt_pow2; [lia | ].
  rewrite Z.log2_lor by lia.
  pose proof (log2_below a n Hn Ha). pose proof (log2_below b n Hn Hb). lia.
Qed.

(** With the 4-bit and 8-bit masks a coordinate is a 12-bit number. *)
Lemma coord_formula_range (hi lo : byte) : 0 <= coord_formula hi lo < 4096.
Proof.
  unfold coord_formula, FT6X36_MSB_MASK, FT6X36_LSB_MASK.
  change 15 with (Z.ones 4). change 255 with (Z.ones 8).
  rewrite !Z.land_ones, Z.shiftl_mul_pow2 by lia.
  pose proof (Z.mod_pos_bound (u8 hi) (2 ^ 4) ltac:(lia)) as Hh.
  pose proof (Z.mod_pos_bound (u8 lo) (2 ^ 8) ltac:(lia)) as Hl.
  change 4096 with (2 ^ 12). apply lor_below; lia.
Qed.

Lemma to_int16_small (z : Z) : -32768 <= z < 32768 -> to_int16 z = z.
Proof. intros H. unfold to_int16. rewrite Z.mod_small by lia. lia. Qed.

(** Storing a decoded coordinate in an [int16_t] does not change it. *)
Lemma to_int16_coord (hi lo : byte) :
  to_int16 (coord_formula hi lo) = coord_formula hi lo.
Proof. apply to_int16_small. pose proof (coord_formula_range hi lo). lia. Qed.

(** ** The three paths of [ft6x36_read] *)

Section Paths.

Variable P : platform.
Variable cfg : config.

Lemma single_touch_true (r : i2c_reply) :
  single_touch r = true ->
  (reply_err r =? ESP_OK) = true /\ (u8 (cell (reply_buf r) 0) =? 1) = true.
Proof. unfold single_touch. intros H. apply andb_true_iff in H. exact H. Qed.

Lemma single_touch_false (r : i2c_reply) :
  single_touch r = false ->
  negb (reply_err r =? ESP_OK) || negb (u8 (cell (reply_buf r) 0) =? 1) = true.
Proof.
  unfold single_touch. intros H.
  destruct (reply_err r =? ESP_OK), (u8 (cell (reply_buf r) 0) =? 1);
    cbn in *; congruence.
Qed.

Lemma single_touch_ok (r : i2c_reply) :
  reply_err r = ESP_OK -> u8 (cell (reply_buf r) 0) = 1 -> single_touch r = true.
Proof.
  intros He Hn. unfold single_touch. rewrite He, Hn. reflexivity.
Qed.

Lemma single_touch_not (r : i2c_reply) :
  reply_err r <> ESP_OK \/ u8 (cell (reply_buf r) 0) <> 1 -> single_touch r = false.
Proof.
  intros H. unfold single_touch. apply andb_false_iff.
  destruct H as [H | H]; [left | right]; apply Z.eqb_neq; exact H.
Qed.

(** No valid single touch while already Released: nothing is written. *)
Lemma read_idle (data : lv_indev_data_t) (w : world) :
  initialized w ->
  single_touch (touch_reply P cfg w) = false ->
  current_state (touch_inputs (vars w)) = LV_INDEV_STATE_REL ->
  ft6x36_read P cfg data w =
    ((false, as_data (touch_inputs (vars w))),
     {| vars := vars w; i2c_calls := S (i2c_calls w); queue_calls := queue_calls w;
        trace := trace w ++ EvI2CRead (touch_request cfg w)
                         :: bus_error_log (touch_reply P cfg w) |}).
Proof.
  intros Hi Hs Hc. apply single_touch_false in Hs.
  unfold initialized in Hi. unfold touch_reply, touch_request, bus_error_log in *.
  step. rewrite Hi. calc. rewrite Hs.
  destruct (reply_err _ =? ESP_OK); calc; rewrite Hc; calc;
    rewrite <- ?app_assoc; reflexivity.
Qed.

(** No valid single touch while Pressed: the state flips and, with the
    queue compiled in, the sample is published. *)
Lemma read_release (data : lv_indev_data_t) (w : world) :
  initialized w ->
  single_touch (touch_reply P cfg w) = false ->
  current_state (touch_inputs (vars w)) = LV_INDEV_STATE_PR ->
  ft6x36_read P cfg data w =
    ((false, as_data (released (touch_inputs (vars w)))),
     {| vars := with_touch_inputs (vars w) (released (touch_inputs (vars w)));
        i2c_calls := S (i2c_calls w); queue_calls := queue_calls w;
        trace := trace w ++ EvI2CRead (touch_request cfg w)
                         :: bus_error_log (touch_reply P cfg w)
                         ++ (if CONFIG_LV_FT6X36_COORDINATES_QUEUE cfg
                             then [EvQueueOverwrite
                                     (ft6x36_touch_queue_handle (vars w))
                                     (released (touch_inputs (vars w)))]
                             else []) |}).
Proof.
  intros Hi Hs Hc. apply single_touch_false in Hs.
  unfold initialized in Hi. unfold touch_reply, touch_request, bus_error_log in *.
  step. rewrite Hi. calc. rewrite Hs.
  destruct (reply_err _ =? ESP_OK); calc; rewrite Hc; calc;
    destruct (CONFIG_LV_FT6X36_COORDINATES_QUEUE cfg); calc;
    rewrite <- ?app_assoc; calc; rewrite ?app_nil_r; reflexivity.
Qed.

(** Exactly one touch point: decode, orient, store, publish. *)
Lemma read_press (data : lv_indev_data_t) (w : world) :
  initialized w ->
  single_touch (touch_reply P cfg w) = true ->
  let t := pressed_sample cfg (reply_buf (touch_reply P cfg w)) in
  ft6x36_read P cfg data w =
    ((false, as_data t),
     {| vars := with_touch_inputs (vars w) t;
        i2c_calls := S (i2c_calls w); queue_calls := queue_calls w;
        trace := trace w ++ EvI2CRead (touch_request cfg w)
                         :: EvLog LOG_V "X=%u Y=%u" [last_x t; last_y t]
                         :: (if CONFIG_LV_FT6X36_COORDINATES_QUEUE cfg
                             then [EvQueueOverwrite
                                     (ft6x36_touch_queue_handle (vars w)) t]
                             else []) |}).
Proof.
  intros Hi Hs. apply single_touch_true in Hs. destruct Hs as [He Hn].
  unfold initialized in Hi. unfold touch_reply, touch_request in *.
  step. rewrite Hi. calc. rewrite He, Hn. calc.
  unfold pressed_sample, oriented.
  repeat match goal with
         | |- context [to_int16 (Z.lor (Z.shiftl (Z.land (u8 ?h) _) 8) (Z.land (u8 ?l) _))] =>
             change (Z.lor (Z.shiftl (Z.land (u8 h) FT6X36_MSB_MASK) 8)
                           (Z.land (u8 l) FT6X36_LSB_MASK))
               with (coord_formula h l);
             rewrite (to_int16_coord h l)
         end.
  destruct (CONFIG_LV_FT6X36_SWAPXY cfg), (CONFIG_LV_FT6X36_INVERT_X cfg),
    (CONFIG_LV_FT6X36_INVERT_Y cfg), (CONFIG_LV_FT6X36_COORDINATES_QUEUE cfg);
    calc; rewrite <- ?app_assoc; reflexivity.
Qed.

End Paths.

(** ** Calls before initialisation *)

(** C1 (as the code has it): while the device is not initialised,
    [ft6x36_get_gesture_id] returns 0 and [ft6x36_read] returns [false];
    neither issues a bus read nor changes the driver's variables, and
    [ft6x36_read] leaves the caller's output structure exactly as it found
    it. *)
Theorem uninitialised_accessors_only_log
    (P : platform) (cfg : config) (w : world) (data : lv_indev_data_t) :
  inited (ft6x36_status (vars w)) = false ->
  let g := ft6x36_get_gesture_id P cfg w in
  let r := ft6x36_read P cfg data w in
  (fst g = x00 /\
   vars (snd g) = vars w /\
   i2c_calls (snd g) = i2c_calls w /\
   bus_reads (trace (snd g)) = bus_reads (trace w)) /\
  (fst r = (false, data) /\
   vars (snd r) = vars w /\
   i2c_calls (snd r) = i2c_calls w /\
   bus_reads (trace (snd r)) = bus_reads (trace w)).
Proof.
  intros H g r. subst g r.
  rewrite get_gesture_id_uninit, read_uninit by exact H.
  cbn [fst snd vars i2c_calls trace]. unfold bus_reads.
  rewrite filter_snoc. cbn [is_bus_read]. rewrite app_nil_r.
  repeat split.
Qed.

Lemma uninitialised_accessors_only_log_witness :
  let cfg := example_cfg true false false false in
  let P := constant_bus (ok_reply [x01; x00; x0a; x00; x14]) in
  let data := {| point_x := 5; point_y := 7; state := LV_INDEV_STATE_PR |} in
  fst (ft6x36_get_gesture_id P cfg boot) = x00 /\
  fst (ft6x36_read P cfg data boot) = (false, data) /\
  bus_reads (trace (snd (ft6x36_read P cfg data boot))) = [].
Proof.
  intros cfg P data.
  pose proof (uninitialised_accessors_only_log P cfg boot data eq_refl) as H.
  cbv zeta in H. destruct H as [[Hg _] [Hr [_ [_ Hb]]]].
  split; [exact Hg | split; [exact Hr | exact Hb]].
Defined.

(** C1 as stated fails: called before [ft6x06_init] on an output structure
    holding (5, 7, Pressed), [ft6x36_read] returns with the structure still
    holding (5, 7, Pressed), not the Released sample at (-1, -1). *)
Lemma read_uninit_output_is_not_sentinel :
  let cfg := example_cfg true false false false in
  let P := constant_bus (ok_reply [x01; x00; x0a; x00; x14]) in
  let data := {| point_x := 5; point_y := 7; state := LV_INDEV_STATE_PR |} in
  inited (ft6x36_status (vars boot)) = false /\
  snd (fst (ft6x36_read P cfg data boot)) = data /\
  snd (fst (ft6x36_read P cfg data boot)) <>
    {| point_x := -1; point_y := -1; state := LV_INDEV_STATE_REL |}.
Proof.
  cbv zeta. split; [reflexivity | split; [reflexivity | ]].
  vm_compute. discriminate.
Qed.

(** ** Gesture identifier *)

Section Gesture.

Variable P : platform.
Variable cfg : config.

(** Once initialised, the value returned is the buffer cell whatever the
    status of the read; the status only decides whether a line is logged. *)
Lemma get_gesture_id_inited (w : world) :
  initialized w ->
  let r := i2c_bus P (i2c_calls w) (gesture_request cfg w) in
  ft6x36_get_gesture_id P cfg w =
    (cell (reply_buf r) 0,
     {| vars := vars w; i2c_calls := S (i2c_calls w); queue_calls := queue_calls w;
        trace := trace w ++ EvI2CRead (gesture_request cfg w)
                   :: (if reply_err r =? ESP_OK then []
                       else [EvLog LOG_E "Error reading from device: %s" [1]]) |}).
Proof.
  intros Hi. unfold initialized in Hi. unfold gesture_request.
  step. rewrite Hi. calc. unfold ne_ok.
  destruct (reply_err _ =? ESP_OK); cbn; rewrite <- ?app_assoc; reflexivity.
Qed.

End Gesture.

(** C7 (the code departs from its own [@retval]): on an initialised device
    whose gesture register read fails while the one-byte buffer holds 0x5A,
    [ft6x36_get_gesture_id] logs the error and returns 0x5A, not 0. *)
Theorem get_gesture_id_failed_read_returns_buffer :
  let cfg := example_cfg true false false false in
  let P := constant_bus (failed_reply [x5a]) in
  let w := running sentinel_touch (Some 0%nat) in
  initialized w /\
  reply_err (i2c_bus P (i2c_calls w) (gesture_request cfg w)) <> ESP_OK /\
  fst (ft6x36_get_gesture_id P cfg w) = x5a /\
  fst (ft6x36_get_gesture_id P cfg w) <> x00 /\
  error_logs (trace (snd (ft6x36_get_gesture_id P cfg w))) =
    [EvLog LOG_E "Error reading from device: %s" [1]].
Proof.
  cbv zeta. split; [reflexivity | ]. split; [vm_compute; discriminate | ].
  rewrite get_gesture_id_inited by reflexivity.
  split; [reflexivity | ]. split; [vm_compute; discriminate | reflexivity].
Qed.

(** ** One poll of an initialised device *)

(** C10: on return from [ft6x36_read] on an initialised device, the output
    structure shows the stored sample: [data->point.x] is the stored
    [last_x], [data->point.y] the stored [last_y] and [data->state] the
    stored [current_state], whichever branch was taken. *)
Theorem read_output_mirrors_statics
    (P : platform) (cfg : config) (w : world) (data : lv_indev_data_t) :
  initialized w ->
  let out := ft6x36_read P cfg data w in
  let data' := snd (fst out) in
  let t' := touch_inputs (vars (snd out)) in
  point_x data' = last_x t' /\
  point_y data' = last_y t' /\
  state data' = current_state t'.
Proof.
  intros Hi out data' t'. subst t' data' out.
  destruct (single_touch (touch_reply P cfg w)) eqn:Hs.
  - rewrite (read_press P cfg data w Hi Hs). cbn. repeat split.
  - destruct (current_state (touch_inputs (vars w))) eqn:Hc.
    + rewrite (read_idle P cfg data w Hi Hs Hc). cbn. repeat split.
    + rewrite (read_release P cfg data w Hi Hs Hc). cbn. repeat split.
Qed.

Lemma read_output_mirrors_statics_witness :
  let cfg := example_cfg true true true false in
  let P := constant_bus (ok_reply [x01; x00; x0a; x00; x14]) in
  let w := running sentinel_touch (Some 0%nat) in
  let out := ft6x36_read P cfg (as_data sentinel_touch) w in
  initialized w /\
  point_x (snd (fst out)) = last_x (touch_inputs (vars (snd out))) /\
  point_y (snd (fst out)) = last_y (touch_inputs (vars (snd out))) /\
  state (snd (fst out)) = current_state (touch_inputs (vars (snd out))).
Proof.
  intros cfg P w out. split; [reflexivity | ].
  apply (read_output_mirrors_statics P cfg w (as_data sentinel_touch)).
  reflexivity.
Defined.

(** C2: when the five-byte read succeeds with a touch-point count of 1, the
    sampler computes X = ((byte1 & MSB_MASK) << 8) | (byte2 & LSB_MASK) and
    Y = ((byte3 & MSB_MASK) << 8) | (byte4 & LSB_MASK): the stored and
    returned coordinates are those two numbers passed through the configured
    orientation, hence the numbers themselves when no orientation switch is
    set; with byte1 = 0x03 and byte2 = 0xFF, X is 0x3FF. *)
Theorem read_decodes_coordinates
    (P : platform) (cfg : config) (w : world) (data : lv_indev_data_t) :
  initialized w ->
  reply_err (touch_reply P cfg w) = ESP_OK ->
  u8 (cell (reply_buf (touch_reply P cfg w)) 0) = 1 ->
  let buf := reply_buf (touch_reply P cfg w) in
  let X := Z.lor (Z.shiftl (Z.land (u8 (cell buf 1)) FT6X36_MSB_MASK) 8)
                 (Z.land (u8 (cell buf 2)) FT6X36_LSB_MASK) in
  let Y := Z.lor (Z.shiftl (Z.land (u8 (cell buf 3)) FT6X36_MSB_MASK) 8)
                 (Z.land (u8 (cell buf 4)) FT6X36_LSB_MASK) in
  let out := ft6x36_read P cfg data w in
  let t' := touch_inputs (vars (snd out)) in
  (last_x t', last_y t') = oriented cfg (X, Y) /\
  (point_x (snd (fst out)), point_y (snd (fst out))) = oriented cfg (X, Y) /\
  (CONFIG_LV_FT6X36_SWAPXY cfg = false ->
   CONFIG_LV_FT6X36_INVERT_X cfg = false ->
   CONFIG_LV_FT6X36_INVERT_Y cfg = false ->
   last_x t' = X /\ last_y t' = Y) /\
  (cell buf 1 = x03 -> cell buf 2 = xff -> X = 0x3FF).
Proof.
  intros Hi He Hn buf X Y out t'. subst t' out.
  rewrite (read_press P cfg data w Hi (single_touch_ok _ He Hn)).
  cbn [fst snd vars touch_inputs with_touch_inputs as_data point_x point_y].
  fold buf. unfold pressed_sample. cbn [last_x last_y].
  change (coord_formula (cell buf 1) (cell buf 2)) with X.
  change (coord_formula (cell buf 3) (cell buf 4)) with Y.
  split; [symmetry; apply surjective_pairing | ].
  split; [symmetry; apply surjective_pairing | ].
  split.
  - intros Hsw Hix Hiy. unfold oriented. rewrite Hsw, Hix, Hiy. split; reflexivity.
  - intros H1 H2. subst X. rewrite H1, H2. reflexivity.
Qed.

Lemma read_decodes_coordinates_witness :
  let cfg := example_cfg true false false false in
  let P := constant_bus (ok_reply [x01; x03; xff; x01; x2c]) in
  let w := running sentinel_touch (Some 0%nat) in
  let out := ft6x36_read P cfg (as_data sentinel_touch) w in
  (initialized w /\ reply_err (touch_reply P cfg w) = ESP_OK /\
   u8 (cell (reply_buf (touch_reply P cfg w)) 0) = 1) /\
  last_x (touch_inputs (vars (snd out))) = 0x3FF /\
  last_y (touch_inputs (vars (snd out))) = 300.
Proof.
  intros cfg P w out. split; [repeat split | ].
  pose proof (read_decodes_coordinates P cfg w (as_data sentinel_touch)
                eq_refl eq_refl eq_refl) as H.
  cbv zeta in H. destruct H as [_ [_ [H _]]].
  exact (H eq_refl eq_refl eq_refl).
Defined.

(** C3: the transforms run in the fixed order swap X/Y, invert X as
    horizontal resolution - X, invert Y as vertical resolution - Y, so the
    inversions act on the axes after the swap.  With swap and invert-X on and
    invert-Y off, decoded (X, Y) ends as (horizontal resolution - Y, X); for
    decoded (10, 20) on a 320x240 display the stored and returned
    coordinates are (300, 10). *)
Theorem read_swaps_before_inverting
    (P : platform) (cfg : config) (w : world) (data : lv_indev_data_t) :
  initialized w ->
  reply_err (touch_reply P cfg w) = ESP_OK ->
  u8 (cell (reply_buf (touch_reply P cfg w)) 0) = 1 ->
  let buf := reply_buf (touch_reply P cfg w) in
  let X := coord_formula (cell buf 1) (cell buf 2) in
  let Y := coord_formula (cell buf 3) (cell buf 4) in
  let out := ft6x36_read P cfg data w in
  let shown xy := {| point_x := fst xy; point_y := snd xy; state := LV_INDEV_STATE_PR |} in
  let kept xy := {| last_x := fst xy; last_y := snd xy; current_state := LV_INDEV_STATE_PR |} in
  (snd (fst out) = shown (oriented cfg (X, Y)) /\
   touch_inputs (vars (snd out)) = kept (oriented cfg (X, Y))) /\
  (CONFIG_LV_FT6X36_SWAPXY cfg = true ->
   CONFIG_LV_FT6X36_INVERT_X cfg = true ->
   CONFIG_LV_FT6X36_INVERT_Y cfg = false ->
   (snd (fst out) = shown (to_int16 (LV_HOR_RES cfg - Y), X) /\
    touch_inputs (vars (snd out)) = kept (to_int16 (LV_HOR_RES cfg - Y), X)) /\
   (LV_HOR_RES cfg = 320 -> LV_VER_RES cfg = 240 -> X = 10 -> Y = 20 ->
    snd (fst out) = shown (300, 10) /\
    touch_inputs (vars (snd out)) = kept (300, 10))).
Proof.
  intros Hi He Hn buf X Y out shown kept. subst out.
  rewrite (read_press P cfg data w Hi (single_touch_ok _ He Hn)).
  cbn [fst snd vars touch_inputs with_touch_inputs].
  fold buf. unfold pressed_sample, as_data. fold X Y.
  cbn [last_x last_y current_state].
  split; [split; reflexivity | ].
  intros Hsw Hix Hiy. unfold oriented. rewrite Hsw, Hix, Hiy.
  cbn [fst snd].
  split; [split; reflexivity | ].
  intros Hh _ HX HY. rewrite Hh, HX, HY. split; reflexivity.
Qed.

Lemma read_swaps_before_inverting_witness :
  let cfg := example_cfg true true true false in
  let P := constant_bus (ok_reply [x01; x00; x0a; x00; x14]) in
  let w := running sentinel_touch (Some 0%nat) in
  let out := ft6x36_read P cfg (as_data sentinel_touch) w in
  (initialized w /\ reply_err (touch_reply P cfg w) = ESP_OK /\
   u8 (cell (reply_buf (touch_reply P cfg w)) 0) = 1) /\
  snd (fst out) = {| point_x := 300; point_y := 10; state := LV_INDEV_STATE_PR |} /\
  touch_inputs (vars (snd out)) =
    {| last_x := 300; last_y := 10; current_state := LV_INDEV_STATE_PR |}.
Proof.
  intros cfg P w out. split; [repeat split | ].
  pose proof (read_swaps_before_inverting P cfg w (as_data sentinel_touch)
                eq_refl eq_refl eq_refl) as H.
  cbv zeta in H. destruct H as [_ H].
  destruct (H eq_refl eq_refl eq_refl) as [_ H'].
  exact (H' eq_refl eq_refl eq_refl eq_refl).
Defined.

(** ** Polls that see no valid single touch *)

Lemma publishes_app (l1 l2 : list event) :
  publishes (l1 ++ l2) = publishes l1 ++ publishes l2.
Proof. apply filter_app. Qed.

Lemma bus_reads_app (l1 l2 : list event) :
  bus_reads (l1 ++ l2) = bus_reads l1 ++ bus_reads l2.
Proof. apply filter_app. Qed.

Lemma publishes_bus_error_log (r : i2c_reply) : publishes (bus_error_log r) = [].
Proof. unfold bus_error_log. destruct (reply_err r =? ESP_OK); reflexivity. Qed.

Lemma bus_reads_bus_error_log (r : i2c_reply) : bus_reads (bus_error_log r) = [].
Proof. unfold bus_error_log. destruct (reply_err r =? ESP_OK); reflexivity. Qed.

Lemma released_idle (t : ft6x36_touch_t) :
  current_state t = LV_INDEV_STATE_REL -> released t = t.
Proof. destruct t as [x y c]. cbn. intros ->. reflexivity. Qed.

Lemma with_touch_inputs_same (s : statics) : with_touch_inputs s (touch_inputs s) = s.
Proof. destruct s. reflexivity. Qed.

Section NoSingleTouch.

Variable P : platform.
Variable cfg : config.

(** Both no-touch paths at once: the outcome depends on the statics only,
    not on what the bus answered. *)
Lemma read_no_single_touch (data : lv_indev_data_t) (w : world) :
  initialized w ->
  single_touch (touch_reply P cfg w) = false ->
  let out := ft6x36_read P cfg data w in
  fst out = (false, as_data (released (touch_inputs (vars w)))) /\
  vars (snd out) = with_touch_inputs (vars w) (released (touch_inputs (vars w))) /\
  i2c_calls (snd out) = S (i2c_calls w) /\
  publishes (trace (snd out)) = publishes (trace w) ++ release_publish cfg (vars w) /\
  bus_reads (trace (snd out)) = bus_reads (trace w) ++ [EvI2CRead (touch_request cfg w)].
Proof.
  intros Hi Hs out. subst out. unfold release_publish.
  destruct (current_state (touch_inputs (vars w))) eqn:Hc.
  - rewrite (read_idle P cfg data w Hi Hs Hc).
    cbn [fst snd vars i2c_calls trace].
    rewrite (released_idle _ Hc), with_touch_inputs_same.
    rewrite publishes_app, bus_reads_app.
    change (EvI2CRead ?rq :: ?l) with ([EvI2CRead rq] ++ l).
    rewrite publishes_app, bus_reads_app,
      publishes_bus_error_log, bus_reads_bus_error_log.
    repeat split.
  - rewrite (read_release P cfg data w Hi Hs Hc).
    cbn [fst snd vars i2c_calls trace].
    rewrite publishes_app, bus_reads_app.
    change (EvI2CRead ?rq :: ?l) with ([EvI2CRead rq] ++ l).
    rewrite !publishes_app, !bus_reads_app,
      publishes_bus_error_log, bus_reads_bus_error_log.
    destruct (CONFIG_LV_FT6X36_COORDINATES_QUEUE cfg); repeat split.
Qed.

End NoSingleTouch.

(** C4: on an initialised device, a poll whose bus read fails or whose
    touch-point count is not 1 leaves [last_x] and [last_y] as they were and
    returns them with the Released state; a bus error, no touch and
    multi-touch are indistinguishable in the returned sample, the stored
    variables, the bus traffic and the channel traffic. *)
Theorem read_without_single_touch_is_sticky
    (P : platform) (cfg : config) (w : world) (data : lv_indev_data_t) :
  initialized w ->
  reply_err (touch_reply P cfg w) <> ESP_OK \/
    u8 (cell (reply_buf (touch_reply P cfg w)) 0) <> 1 ->
  let t := touch_inputs (vars w) in
  let out := ft6x36_read P cfg data w in
  let t' := touch_inputs (vars (snd out)) in
  (last_x t' = last_x t /\ last_y t' = last_y t /\
   current_state t' = LV_INDEV_STATE_REL /\
   fst out = (false, {| point_x := last_x t; point_y := last_y t;
                        state := LV_INDEV_STATE_REL |})) /\
  (forall (P' : platform) (data' : lv_indev_data_t),
      reply_err (touch_reply P' cfg w) <> ESP_OK \/
        u8 (cell (reply_buf (touch_reply P' cfg w)) 0) <> 1 ->
      let out' := ft6x36_read P' cfg data' w in
      fst out' = fst out /\
      vars (snd out') = vars (snd out) /\
      bus_reads (trace (snd out')) = bus_reads (trace (snd out)) /\
      publishes (trace (snd out')) = publishes (trace (snd out))).
Proof.
  intros Hi Hs t out t'. subst t' out. apply single_touch_not in Hs.
  destruct (read_no_single_touch P cfg data w Hi Hs) as (Ho & Hv & _ & Hp & Hb).
  split.
  - rewrite Hv, Ho. cbn. repeat split.
  - intros P' data' Hs' out'. subst out'. apply single_touch_not in Hs'.
    destruct (read_no_single_touch P' cfg data' w Hi Hs') as (Ho' & Hv' & _ & Hp' & Hb').
    rewrite Ho, Ho', Hv, Hv', Hp, Hp', Hb, Hb'. repeat split.
Qed.

Lemma read_without_single_touch_is_sticky_witness :
  let cfg := example_cfg true false false false in
  let held := {| last_x := 120; last_y := 45; current_state := LV_INDEV_STATE_PR |} in
  let w := running held (Some 0%nat) in
  let no_touch := constant_bus (ok_reply [x00; x00; x00; x00; x00]) in
  let two_fingers := constant_bus (ok_reply [x02; x00; x0a; x00; x14]) in
  let bus_error := constant_bus (failed_reply [x01; x00; x0a; x00; x14]) in
  let data := as_data sentinel_touch in
  let shown := {| point_x := 120; point_y := 45; state := LV_INDEV_STATE_REL |} in
  (initialized w /\ u8 (cell (reply_buf (touch_reply no_touch cfg w)) 0) <> 1) /\
  fst (ft6x36_read no_touch cfg data w) = (false, shown) /\
  fst (ft6x36_read two_fingers cfg data w) = (false, shown) /\
  fst (ft6x36_read bus_error cfg data w) = (false, shown).
Proof.
  intros cfg held w no_touch two_fingers bus_error data shown.
  assert (Hnone : u8 (cell (reply_buf (touch_reply no_touch cfg w)) 0) <> 1)
    by (vm_compute; discriminate).
  assert (Htwo : u8 (cell (reply_buf (touch_reply two_fingers cfg w)) 0) <> 1)
    by (vm_compute; discriminate).
  assert (Herr : reply_err (touch_reply bus_error cfg w) <> ESP_OK)
    by (vm_compute; discriminate).
  split; [split; [reflexivity | exact Hnone] | ].
  pose proof (read_without_single_touch_is_sticky no_touch cfg w data
                eq_refl (or_intror Hnone)) as H.
  cbv zeta in H. destruct H as [(_ & _ & _ & H1) H2].
  split; [exact H1 | ].
  split.
  - destruct (H2 two_fingers data (or_intror Htwo)) as [E _]. rewrite E. exact H1.
  - destruct (H2 bus_error data (or_introl Herr)) as [E _]. rewrite E. exact H1.
Defined.

(** ** Runs of polls *)

Section Runs.

Variable P : platform.
Variable cfg : config.

Lemma poll_S (n : nat) (data : lv_indev_data_t) (w : world) :
  poll P cfg (S n) data w =
    (snd (fst (ft6x36_read P cfg data w))
       :: fst (poll P cfg n (snd (fst (ft6x36_read P cfg data w)))
                            (snd (ft6x36_read P cfg data w))),
     snd (poll P cfg n (snd (fst (ft6x36_read P cfg data w)))
                       (snd (ft6x36_read P cfg data w)))).
Proof.
  cbn [poll]. unfold bind, ret.
  destruct (ft6x36_read P cfg data w) as [[b d] w1]. cbn [fst snd].
  destruct (poll P cfg n d w1) as [ds w2]. reflexivity.
Qed.

(** A run of polls on a Released device that never sees a valid single
    touch: every output is the stored sample, nothing is written and
    nothing is published. *)
Lemma poll_idle (n : nat) :
  forall (data : lv_indev_data_t) (w : world),
    initialized w ->
    current_state (touch_inputs (vars w)) = LV_INDEV_STATE_REL ->
    (forall k, (k < n)%nat -> single_touch (nth_touch_reply P cfg w k) = false) ->
    let out := poll P cfg n data w in
    fst out = repeat (as_data (touch_inputs (vars w))) n /\
    vars (snd out) = vars w /\
    publishes (trace (snd out)) = publishes (trace w).
Proof.
  induction n as [| n IH]; intros data w Hi Hc Hk out; subst out.
  - cbn. repeat split.
  - rewrite poll_S.
    assert (Hs : single_touch (touch_reply P cfg w) = false).
    { specialize (Hk 0%nat ltac:(lia)). unfold nth_touch_reply in Hk.
      rewrite Nat.add_0_r in Hk. exact Hk. }
    rewrite (read_idle P cfg data w Hi Hs Hc). cbn [fst snd].
    set (w1 := {| vars := vars w; i2c_calls := S (i2c_calls w);
                  queue_calls := queue_calls w; trace := _ |}).
    destruct (IH (as_data (touch_inputs (vars w))) w1 Hi Hc) as (Ho & Hv & Hp).
    { intros k Hlt. specialize (Hk (S k) ltac:(lia)).
      unfold nth_touch_reply in *. cbn [i2c_calls w1].
      rewrite Nat.add_succ_r in Hk. exact Hk. }
    cbn [vars w1] in Ho, Hv. rewrite Ho, Hv, Hp.
    cbn [trace w1 repeat].
    rewrite publishes_app.
    change (EvI2CRead ?rq :: ?l) with ([EvI2CRead rq] ++ l).
    rewrite publishes_app, publishes_bus_error_log.
    cbn. rewrite app_nil_r. repeat split.
Qed.

(** A run of polls that each see exactly one touch point publishes, with
    the queue compiled in, the sample decoded from each reply, in order. *)
Lemma poll_pressed (n : nat) :
  forall (data : lv_indev_data_t) (w : world),
    initialized w ->
    CONFIG_LV_FT6X36_COORDINATES_QUEUE cfg = true ->
    (forall k, (k < n)%nat -> single_touch (nth_touch_reply P cfg w k) = true) ->
    let out := poll P cfg n data w in
    fst out = map (fun k => as_data (pressed_sample cfg (reply_buf (nth_touch_reply P cfg w k))))
                  (seq 0 n) /\
    publishes (trace (snd out)) =
      publishes (trace w)
      ++ map (fun k => EvQueueOverwrite (ft6x36_touch_queue_handle (vars w))
                         (pressed_sample cfg (reply_buf (nth_touch_reply P cfg w k))))
             (seq 0 n).
Proof.
  induction n as [| n IH]; intros data w Hi Hq Hk out; subst out.
  - cbn. rewrite app_nil_r. split; reflexivity.
  - rewrite poll_S.
    assert (Hs : single_touch (touch_reply P cfg w) = true).
    { specialize (Hk 0%nat ltac:(lia)). unfold nth_touch_reply in Hk.
      rewrite Nat.add_0_r in Hk. exact Hk. }
    pose proof (read_press P cfg data w Hi Hs) as Hr. cbv zeta in Hr.
    rewrite Hr. cbn [fst snd]. rewrite Hq.
    set (t := pressed_sample cfg (reply_buf (touch_reply P cfg w))).
    set (w1 := {| vars := with_touch_inputs (vars w) t; i2c_calls := S (i2c_calls w);
                  queue_calls := queue_calls w; trace := _ |}).
    assert (Hshift : forall k, nth_touch_reply P cfg w1 k = nth_touch_reply P cfg w (S k)).
    { intros k. unfold nth_touch_reply, touch_request. cbn [i2c_calls vars w1
        with_touch_inputs current_dev_addr]. rewrite Nat.add_succ_r. reflexivity. }
    destruct (IH (as_data t) w1) as (Ho & Hp).
    { exact Hi. }
    { exact Hq. }
    { intros k Hlt. rewrite Hshift. apply Hk. lia. }
    rewrite Ho, Hp. cbn [trace w1 vars with_touch_inputs ft6x36_touch_queue_handle].
    assert (H0 : nth_touch_reply P cfg w 0 = touch_reply P cfg w).
    { unfold nth_touch_reply, touch_reply. rewrite Nat.add_0_r. reflexivity. }
    cbn [seq map]. rewrite <- seq_shift, !map_map, H0. fold t.
    split.
    + f_equal. apply map_ext. intros k. rewrite Hshift. reflexivity.
    + rewrite publishes_app. cbn. rewrite <- app_assoc. cbn.
      do 2 f_equal. apply map_ext. intros k. rewrite Hshift. reflexivity.
Qed.

End Runs.

(** C5: with the queue compiled in, a Pressed device that stops seeing a
    valid single touch publishes the Released sample on the first such poll
    and nothing on any further such poll: one publish for the transition,
    however long the run. *)
Theorem release_is_published_once
    (P : platform) (cfg : config) (w : world) (data : lv_indev_data_t) (n : nat) :
  CONFIG_LV_FT6X36_COORDINATES_QUEUE cfg = true ->
  initialized w ->
  current_state (touch_inputs (vars w)) = LV_INDEV_STATE_PR ->
  (forall k, (k < S n)%nat ->
     reply_err (nth_touch_reply P cfg w k) <> ESP_OK \/
     u8 (cell (reply_buf (nth_touch_reply P cfg w k)) 0) <> 1) ->
  let t := touch_inputs (vars w) in
  let sample := {| last_x := last_x t; last_y := last_y t;
                   current_state := LV_INDEV_STATE_REL |} in
  let first := ft6x36_read P cfg data w in
  let later := poll P cfg n (snd (fst first)) (snd first) in
  publishes (trace (snd first)) =
    publishes (trace w) ++ [EvQueueOverwrite (ft6x36_touch_queue_handle (vars w)) sample] /\
  publishes (trace (snd later)) = publishes (trace (snd first)) /\
  publishes (trace (snd (poll P cfg (S n) data w))) =
    publishes (trace w) ++ [EvQueueOverwrite (ft6x36_touch_queue_handle (vars w)) sample].
Proof.
  intros Hq Hi Hc Hk' t sample first later.
  assert (Hk : forall k, (k < S n)%nat ->
                 single_touch (nth_touch_reply P cfg w k) = false)
    by (intros k Hlt; apply single_touch_not, Hk', Hlt).
  assert (Hs : single_touch (touch_reply P cfg w) = false).
  { specialize (Hk 0%nat ltac:(lia)). unfold nth_touch_reply in Hk.
    rewrite Nat.add_0_r in Hk. exact Hk. }
  destruct (read_no_single_touch P cfg data w Hi Hs) as (Ho & Hv & Hn & Hp & _).
  fold first in Ho, Hv, Hn, Hp.
  unfold release_publish in Hp. rewrite Hc, Hq in Hp.
  change (released (touch_inputs (vars w))) with sample in Hp, Hv.
  assert (Hlater : publishes (trace (snd later)) = publishes (trace (snd first))).
  { subst later.
    apply (poll_idle P cfg n (snd (fst first)) (snd first)).
    - unfold initialized. rewrite Hv. exact Hi.
    - rewrite Hv. reflexivity.
    - intros k Hlt. specialize (Hk (S k) ltac:(lia)).
      unfold nth_touch_reply, touch_request in *.
      rewrite Hn, Hv. cbn [with_touch_inputs current_dev_addr].
      rewrite Nat.add_succ_r in Hk. exact Hk. }
  split; [exact Hp | ]. split; [exact Hlater | ].
  rewrite poll_S. cbn [snd]. fold first. fold later.
  rewrite Hlater. exact Hp.
Qed.

Lemma release_is_published_once_witness :
  let cfg := example_cfg true false false false in
  let P := constant_bus (ok_reply [x00; x00; x00; x00; x00]) in
  let held := {| last_x := 120; last_y := 45; current_state := LV_INDEV_STATE_PR |} in
  let w := running held (Some 0%nat) in
  (CONFIG_LV_FT6X36_COORDINATES_QUEUE cfg = true /\ initialized w /\
   current_state (touch_inputs (vars w)) = LV_INDEV_STATE_PR) /\
  publishes (trace (snd (poll P cfg 4 (as_data held) w))) =
    [EvQueueOverwrite (Some 0%nat)
       {| last_x := 120; last_y := 45; current_state := LV_INDEV_STATE_REL |}].
Proof.
  intros cfg P held w. split; [repeat split | ].
  assert (Hnone : forall k, (k < 4)%nat ->
             reply_err (nth_touch_reply P cfg w k) <> ESP_OK \/
             u8 (cell (reply_buf (nth_touch_reply P cfg w k)) 0) <> 1)
    by (intros k _; right; vm_compute; discriminate).
  pose proof (release_is_published_once P cfg w (as_data held) 3
                eq_refl eq_refl eq_refl Hnone) as H.
  cbv zeta in H. destruct H as (_ & _ & H). exact H.
Defined.

(** C6: with the queue compiled in, every poll whose read succeeds with a
    touch-point count of 1 publishes the sample it has just decoded, in the
    Pressed state: a run of N such polls publishes N samples, one per
    reply and in the order of the replies. *)
Theorem pressed_polls_publish_each_sample
    (P : platform) (cfg : config) (w : world) (data : lv_indev_data_t) (n : nat) :
  CONFIG_LV_FT6X36_COORDINATES_QUEUE cfg = true ->
  initialized w ->
  (forall k, (k < n)%nat ->
     reply_err (nth_touch_reply P cfg w k) = ESP_OK /\
     u8 (cell (reply_buf (nth_touch_reply P cfg w k)) 0) = 1) ->
  let w' := snd (poll P cfg n data w) in
  let decoded k := pressed_sample cfg (reply_buf (nth_touch_reply P cfg w k)) in
  publishes (trace w') =
    publishes (trace w)
    ++ map (fun k => EvQueueOverwrite (ft6x36_touch_queue_handle (vars w)) (decoded k))
           (seq 0 n) /\
  List.length (publishes (trace w')) = (List.length (publishes (trace w)) + n)%nat /\
  (forall k, current_state (decoded k) = LV_INDEV_STATE_PR).
Proof.
  intros Hq Hi Hk' w' decoded. subst w'.
  assert (Hk : forall k, (k < n)%nat ->
                 single_touch (nth_touch_reply P cfg w k) = true)
    by (intros k Hlt; destruct (Hk' k Hlt); apply single_touch_ok; assumption).
  destruct (poll_pressed P cfg n data w Hi Hq Hk) as [_ Hp].
  split; [exact Hp | ]. split; [ | reflexivity].
  rewrite Hp, length_app, length_map, length_seq. reflexivity.
Qed.

Lemma pressed_polls_publish_each_sample_witness :
  let cfg := example_cfg true false false false in
  let P := constant_bus (ok_reply [x01; x03; xff; x01; x2c]) in
  let w := running sentinel_touch (Some 0%nat) in
  let sample := {| last_x := 0x3FF; last_y := 300; current_state := LV_INDEV_STATE_PR |} in
  (CONFIG_LV_FT6X36_COORDINATES_QUEUE cfg = true /\ initialized w) /\
  publishes (trace (snd (poll P cfg 3 (as_data sentinel_touch) w))) =
    [EvQueueOverwrite (Some 0%nat) sample;
     EvQueueOverwrite (Some 0%nat) sample;
     EvQueueOverwrite (Some 0%nat) sample].
Proof.
  intros cfg P w sample. split; [split; reflexivity | ].
  pose proof (pressed_polls_publish_each_sample P cfg w (as_data sentinel_touch) 3
                eq_refl eq_refl (fun k _ => conj eq_refl eq_refl)) as H.
  cbv zeta in H. destruct H as [H _]. exact H.
Defined.

(** C8: two polls in a row of an initialised, Released device, answered by
    the bus with the same no-touch reply, give the same output sample, leave
    the stored variables as they were, and the second publishes nothing. *)
Theorem idle_poll_is_idempotent
    (P : platform) (cfg : config) (w : world) (data1 data2 : lv_indev_data_t) :
  initialized w ->
  current_state (touch_inputs (vars w)) = LV_INDEV_STATE_REL ->
  reply_err (nth_touch_reply P cfg w 0) <> ESP_OK \/
    u8 (cell (reply_buf (nth_touch_reply P cfg w 0)) 0) <> 1 ->
  nth_touch_reply P cfg w 1 = nth_touch_reply P cfg w 0 ->
  let first := ft6x36_read P cfg data1 w in
  let second := ft6x36_read P cfg data2 (snd first) in
  fst second = fst first /\
  fst first = (false, as_data (touch_inputs (vars w))) /\
  vars (snd first) = vars w /\
  vars (snd second) = vars w /\
  publishes (trace (snd first)) = publishes (trace w) /\
  publishes (trace (snd second)) = publishes (trace (snd first)).
Proof.
  intros Hi Hc Hs Hsame first second. apply single_touch_not in Hs.
  assert (Hs0 : single_touch (touch_reply P cfg w) = false).
  { unfold nth_touch_reply in Hs. rewrite Nat.add_0_r in Hs. exact Hs. }
  destruct (read_no_single_touch P cfg data1 w Hi Hs0) as (Ho & Hv & Hn & Hp & _).
  fold first in Ho, Hv, Hn, Hp.
  unfold release_publish in Hp. rewrite Hc, app_nil_r in Hp.
  rewrite (released_idle _ Hc) in Ho, Hv. rewrite with_touch_inputs_same in Hv.
  assert (Hi1 : initialized (snd first)) by (unfold initialized; rewrite Hv; exact Hi).
  assert (Hs1 : single_touch (touch_reply P cfg (snd first)) = false).
  { rewrite <- Hsame in Hs. unfold nth_touch_reply, touch_reply, touch_request in *.
    rewrite Hn, Hv. rewrite Nat.add_1_r in Hs. exact Hs. }
  destruct (read_no_single_touch P cfg data2 (snd first) Hi1 Hs1)
    as (Ho' & Hv' & _ & Hp' & _).
  fold second in Ho', Hv', Hp'.
  unfold release_publish in Hp'. rewrite Hv in Ho', Hv', Hp'.
  rewrite Hc, app_nil_r in Hp'.
  rewrite (released_idle _ Hc) in Ho', Hv'. rewrite with_touch_inputs_same in Hv'.
  rewrite Ho, Ho'. repeat split; assumption.
Qed.

Lemma idle_poll_is_idempotent_witness :
  let cfg := example_cfg true false false false in
  let P := constant_bus (ok_reply [x00; x00; x00; x00; x00]) in
  let rested := {| last_x := 120; last_y := 45; current_state := LV_INDEV_STATE_REL |} in
  let w := running rested (Some 0%nat) in
  let first := ft6x36_read P cfg (as_data sentinel_touch) w in
  let second := ft6x36_read P cfg (as_data sentinel_touch) (snd first) in
  (initialized w /\ current_state (touch_inputs (vars w)) = LV_INDEV_STATE_REL /\
   u8 (cell (reply_buf (nth_touch_reply P cfg w 0)) 0) <> 1) /\
  fst second = fst first /\
  vars (snd second) = vars w /\
  publishes (trace (snd second)) = [].
Proof.
  intros cfg P rested w first second.
  assert (Hnone : u8 (cell (reply_buf (nth_touch_reply P cfg w 0)) 0) <> 1)
    by (vm_compute; discriminate).
  split; [split; [reflexivity | split; [reflexivity | exact Hnone]] | ].
  pose proof (idle_poll_is_idempotent P cfg w (as_data sentinel_touch)
                (as_data sentinel_touch) eq_refl eq_refl (or_intror Hnone) eq_refl) as H.
  cbv zeta in H. destruct H as (H1 & _ & _ & H2 & H3 & H4).
  split; [exact H1 | ]. split; [exact H2 | ].
  exact (eq_trans H4 H3).
Defined.

(** ** Initialisation *)

Ltac run :=
  cbv [ft6x06_init ft6x06_i2c_read8 set_queue_handle set_current_dev_addr set_inited
       xQueueSend xQueueCreate lvgl_i2c_read ESP_LOGE ESP_LOGI when emit modify gets
       bind ret vars i2c_calls queue_calls trace fst snd ne_ok negb Z.eqb ESP_OK
       ft6x36_status current_dev_addr touch_inputs ft6x36_touch_queue_handle inited].

Ltac sift :=
  unfold bus_reads, publishes, read_errors;
  rewrite ?filter_snoc;
  cbn [is_bus_read is_publish is_read_error String.eqb Ascii.eqb Bool.eqb];
  rewrite ?app_nil_r, <- ?app_assoc; cbn [app].

(** C9 (as the code has it): every call to [ft6x06_init] marks the device
    initialised, stores the low eight bits of the given address (the address
    itself when it fits in eight bits), leaves the stored sample alone and
    issues the five diagnostic reads in order whatever their outcome; only a
    failure of the first of them (panel ID) is reported by an error line.
    When the queue is compiled in and its allocation succeeds, the new queue
    receives the sample currently stored, which is the sentinel (-1, -1,
    Released) as long as no touch has been stored since start-up. *)
Theorem init_marks_stores_and_seeds
    (P : platform) (cfg : config) (dev_addr : Z) (w : world) :
  let w' := snd (ft6x06_init P cfg dev_addr w) in
  let first := i2c_bus P (i2c_calls w)
                 (diag_request cfg dev_addr (FT6X36_PANEL_ID_REG (regs cfg))) in
  inited (ft6x36_status (vars w')) = true /\
  current_dev_addr (vars w') = dev_addr mod 256 /\
  (0 <= dev_addr < 256 -> current_dev_addr (vars w') = dev_addr) /\
  touch_inputs (vars w') = touch_inputs (vars w) /\
  bus_reads (trace w') =
    bus_reads (trace w)
    ++ map (fun r => EvI2CRead (diag_request cfg dev_addr r)) (diag_registers cfg) /\
  read_errors (trace w') =
    read_errors (trace w)
    ++ (if reply_err first =? ESP_OK then []
        else [EvLog LOG_E "Error reading from device: %s" [1]]) /\
  (CONFIG_LV_FT6X36_COORDINATES_QUEUE cfg = true ->
   xQueueCreate_ok P (queue_calls w) = true ->
   ft6x36_touch_queue_handle (vars w') = Some (queue_calls w) /\
   publishes (trace w') =
     publishes (trace w)
     ++ [EvQueueSend (Some (queue_calls w)) (touch_inputs (vars w)) 0] /\
   (touch_inputs (vars w) = sentinel_touch ->
    publishes (trace w') =
      publishes (trace w) ++ [EvQueueSend (Some (queue_calls w)) sentinel_touch 0])).
Proof.
  intros w' first. subst w' first.
  unfold diag_request, diag_registers, to_uint8. cbn [map].
  destruct w as [[[ini] addr t h] c q tr].
  run.
  destruct (reply_err _) as [ | p | p ];
    destruct (CONFIG_LV_FT6X36_COORDINATES_QUEUE cfg);
    try destruct (xQueueCreate_ok P q).
  all: run.
  all: repeat match goal with |- _ /\ _ => split end.
  all: try reflexivity.
  all: try (intros; apply Z.mod_small; assumption).
  all: try (sift; reflexivity).
  all: try (intros; discriminate).
  all: intros _ _.
  all: repeat match goal with |- _ /\ _ => split end.
  all: try reflexivity.
  all: try (sift; reflexivity).
  all: intros ->; sift; reflexivity.
Qed.

Lemma init_marks_stores_and_seeds_witness :
  let cfg := example_cfg true false false false in
  let P := constant_bus (ok_reply [x11]) in
  let w' := snd (ft6x06_init P cfg 0x38 boot) in
  inited (ft6x36_status (vars w')) = true /\
  current_dev_addr (vars w') = 0x38 /\
  ft6x36_touch_queue_handle (vars w') = Some 0%nat /\
  publishes (trace w') = [EvQueueSend (Some 0%nat) sentinel_touch 0].
Proof.
  intros cfg P w'.
  pose proof (init_marks_stores_and_seeds P cfg 0x38 boot) as H.
  cbv zeta in H. destruct H as (H1 & _ & H3 & _ & _ & _ & H7).
  destruct (H7 eq_refl eq_refl) as (Hh & _ & Hs).
  split; [exact H1 | ].
  split; [apply H3; lia | ].
  split; [exact Hh | exact (Hs eq_refl)].
Defined.

(** C9 as stated fails on three counts.  An address wider than eight bits
    is not stored as given: 0x138 is kept as 0x38.  Failed diagnostic reads
    other than the first leave no error line: with reads two to five
    failing, the error log stays empty.  A call made after a touch has been
    sampled seeds the new queue with that sample, not with the sentinel. *)
Lemma init_claim_fails :
  let cfg := example_cfg true false false false in
  let touch := constant_bus (ok_reply [x01; x00; x0a; x00; x14]) in
  let w1 := snd (ft6x06_init touch cfg 0x38 boot) in
  let w2 := snd (ft6x36_read touch cfg (as_data sentinel_touch) w1) in
  let w3 := snd (ft6x06_init touch cfg 0x38 w2) in
  let seen := {| last_x := 10; last_y := 20; current_state := LV_INDEV_STATE_PR |} in
  current_dev_addr (vars (snd (ft6x06_init touch cfg 0x138 boot))) <> 0x138 /\
  error_logs (trace (snd (ft6x06_init (bus_ok_until 1 [x11]) cfg 0x38 boot))) = [] /\
  publishes (trace w3) =
    [EvQueueSend (Some 0%nat) sentinel_touch 0;
     EvQueueOverwrite (Some 0%nat) seen;
     EvQueueSend (Some 1%nat) seen 0] /\
  seen <> sentinel_touch.
Proof.
  cbv zeta. split; [intros H; vm_compute in H; discriminate H | ].
  split; [vm_compute; reflexivity | ].
  split; [vm_compute; reflexivity | ].
  intros H. discriminate H.
Qed.

(** * Further properties of the driver *)

(** ** Effect of each entry point on an arbitrary world *)

Ltac sift_queue :=
  unfold bus_reads, publishes, queue_traffic, error_logs;
  rewrite ?filter_snoc;
  cbn [is_bus_read is_publish is_queue_api is_error_log];
  rewrite ?app_nil_r, <- ?app_assoc; cbn [app].

Lemma init_effect (P : platform) (cfg : config) (dev_addr : Z) (w : world) :
  let w' := snd (ft6x06_init P cfg dev_addr w) in
  vars w' = {| ft6x36_status := {| inited := true |};
               current_dev_addr := to_uint8 dev_addr;
               touch_inputs := touch_inputs (vars w);
               ft6x36_touch_queue_handle := init_handle P cfg w |} /\
  i2c_calls w' = (5 + i2c_calls w)%nat /\
  queue_calls w' = (if CONFIG_LV_FT6X36_COORDINATES_QUEUE cfg
                    then S (queue_calls w) else queue_calls w) /\
  publishes (trace w') = publishes (trace w) ++ init_publish P cfg w /\
  queue_traffic (trace w') =
    queue_traffic (trace w)
    ++ (if CONFIG_LV_FT6X36_COORDINATES_QUEUE cfg
        then EvQueueCreate FT6X36_TOUCH_QUEUE_ELEMENTS :: init_publish P cfg w
        else []) /\
  bus_reads (trace w') =
    bus_reads (trace w)
    ++ map (fun r => EvI2CRead (diag_request cfg dev_addr r)) (diag_registers cfg).
Proof.
  intros w'. subst w'.
  unfold diag_request, diag_registers, init_handle, init_publish. cbn [map].
  destruct w as [[[ini] addr t h] c q tr].
  run.
  destruct (reply_err _) as [ | p | p ];
    destruct (CONFIG_LV_FT6X36_COORDINATES_QUEUE cfg);
    try destruct (xQueueCreate_ok P q).
  all: run.
  all: repeat match goal with |- _ /\ _ => split end.
  all: try reflexivity.
  all: sift_queue; reflexivity.
Qed.

Lemma queue_traffic_app (l1 l2 : list event) :
  queue_traffic (l1 ++ l2) = queue_traffic l1 ++ queue_traffic l2.
Proof. apply filter_app. Qed.

Lemma queue_traffic_bus_error_log (r : i2c_reply) : queue_traffic (bus_error_log r) = [].
Proof. unfold bus_error_log. destruct (reply_err r =? ESP_OK); reflexivity. Qed.

Lemma queue_traffic_release_publish (cfg : config) (s : statics) :
  queue_traffic (release_publish cfg s) = release_publish cfg s.
Proof.
  unfold release_publish.
  destruct (current_state (touch_inputs s)),
    (CONFIG_LV_FT6X36_COORDINATES_QUEUE cfg); reflexivity.
Qed.

Section Effects.

Variable P : platform.
Variable cfg : config.

(** What one [ft6x36_read] does to any world, in closed form. *)
Lemma read_effect (data : lv_indev_data_t) (w : world) :
  let out := ft6x36_read P cfg data w in
  let ini := inited (ft6x36_status (vars w)) in
  fst out = (false, if ini then as_data (read_touch P cfg w) else data) /\
  vars (snd out) = with_touch_inputs (vars w) (read_touch P cfg w) /\
  i2c_calls (snd out) = (if ini then S (i2c_calls w) else i2c_calls w) /\
  queue_calls (snd out) = queue_calls w /\
  publishes (trace (snd out)) = publishes (trace w) ++ read_publish P cfg w /\
  queue_traffic (trace (snd out)) = queue_traffic (trace w) ++ read_publish P cfg w /\
  bus_reads (trace (snd out)) =
    bus_reads (trace w) ++ (if ini then [EvI2CRead (touch_request cfg w)] else []).
Proof.
  intros out ini. subst out ini. unfold read_touch, read_publish.
  destruct (inited (ft6x36_status (vars w))) eqn:Hi.
  - destruct (single_touch (touch_reply P cfg w)) eqn:Hs.
    + pose proof (read_press P cfg data w Hi Hs) as Hr. cbv zeta in Hr. rewrite Hr.
      cbn [fst snd vars i2c_calls queue_calls trace].
      rewrite publishes_app, queue_traffic_app, bus_reads_app.
      destruct (CONFIG_LV_FT6X36_COORDINATES_QUEUE cfg); repeat split.
    + destruct (read_no_single_touch P cfg data w Hi Hs) as (Ho & Hv & Hn & Hp & Hb).
      rewrite Ho, Hv, Hn, Hp, Hb. repeat split.
      * destruct (current_state (touch_inputs (vars w))) eqn:Hc.
        -- rewrite (read_idle P cfg data w Hi Hs Hc). reflexivity.
        -- rewrite (read_release P cfg data w Hi Hs Hc). reflexivity.
      * rewrite <- queue_traffic_release_publish.
        destruct (current_state (touch_inputs (vars w))) eqn:Hc.
        -- rewrite (read_idle P cfg data w Hi Hs Hc). cbn [snd trace].
           change (EvI2CRead ?rq :: ?l) with ([EvI2CRead rq] ++ l).
           rewrite !queue_traffic_app, queue_traffic_bus_error_log.
           unfold release_publish. rewrite Hc. reflexivity.
        -- rewrite (read_release P cfg data w Hi Hs Hc). cbn [snd trace].
           change (EvI2CRead ?rq :: ?l) with ([EvI2CRead rq] ++ l).
           rewrite !queue_traffic_app, queue_traffic_bus_error_log.
           unfold release_publish. rewrite Hc. reflexivity.
  - rewrite (read_uninit P cfg data w Hi).
    cbn [fst snd vars i2c_calls queue_calls trace].
    rewrite with_touch_inputs_same.
    unfold publishes, queue_traffic, bus_reads. rewrite !filter_snoc.
    cbn [is_publish is_queue_api is_bus_read]. repeat split.
Qed.

(** What one [ft6x36_get_gesture_id] does to any world. *)
Lemma get_gesture_id_effect (w : world) :
  let out := ft6x36_get_gesture_id P cfg w in
  let ini := inited (ft6x36_status (vars w)) in
  vars (snd out) = vars w /\
  i2c_calls (snd out) = (if ini then S (i2c_calls w) else i2c_calls w) /\
  queue_calls (snd out) = queue_calls w /\
  publishes (trace (snd out)) = publishes (trace w) /\
  queue_traffic (trace (snd out)) = queue_traffic (trace w) /\
  bus_reads (trace (snd out)) =
    bus_reads (trace w) ++ (if ini then [EvI2CRead (gesture_request cfg w)] else []).
Proof.
  intros out ini. subst out ini.
  destruct (inited (ft6x36_status (vars w))) eqn:Hi.
  - pose proof (get_gesture_id_inited P cfg w Hi) as Hr. cbv zeta in Hr. rewrite Hr.
    cbn [fst snd vars i2c_calls queue_calls trace].
    change (EvI2CRead ?rq :: ?l) with ([EvI2CRead rq] ++ l).
    rewrite !publishes_app, !queue_traffic_app, !bus_reads_app.
    destruct (reply_err _ =? ESP_OK); cbn; rewrite ?app_nil_r; repeat split.
  - rewrite (get_gesture_id_uninit P cfg w Hi).
    cbn [fst snd vars i2c_calls queue_calls trace].
    unfold publishes, queue_traffic, bus_reads. rewrite !filter_snoc.
    cbn [is_publish is_queue_api is_bus_read]. rewrite !app_nil_r. repeat split.
Qed.

End Effects.

(** ** What the accessors leave alone *)

(** X1: [ft6x36_read] returns [false] on every path, initialised or not,
    whatever the bus answers; it never changes the initialisation flag, the
    device address or the queue handle, and never creates a queue.  The only
    static it can write is [touch_inputs]. *)
Theorem read_returns_false_and_keeps_setup
    (P : platform) (cfg : config) (data : lv_indev_data_t) (w : world) :
  let out := ft6x36_read P cfg data w in
  fst (fst out) = false /\
  ft6x36_status (vars (snd out)) = ft6x36_status (vars w) /\
  current_dev_addr (vars (snd out)) = current_dev_addr (vars w) /\
  ft6x36_touch_queue_handle (vars (snd out)) = ft6x36_touch_queue_handle (vars w) /\
  queue_calls (snd out) = queue_calls w.
Proof.
  intros out. subst out.
  destruct (read_effect P cfg data w) as (Ho & Hv & _ & Hq & _).
  rewrite Ho, Hv, Hq. cbn. repeat split.
Qed.

(** X2: [ft6x36_get_gesture_id] is read-only.  It never changes a static
    and never uses the queue API.  Before initialisation it returns 0
    without a bus read; afterwards it issues exactly one one-byte read of
    the gesture register at the stored address and returns the byte found
    in the buffer. *)
Theorem get_gesture_id_is_read_only
    (P : platform) (cfg : config) (w : world) :
  let out := ft6x36_get_gesture_id P cfg w in
  let ini := inited (ft6x36_status (vars w)) in
  let reply := i2c_bus P (i2c_calls w) (gesture_request cfg w) in
  fst out = (if ini then cell (reply_buf reply) 0 else x00) /\
  vars (snd out) = vars w /\
  queue_calls (snd out) = queue_calls w /\
  queue_traffic (trace (snd out)) = queue_traffic (trace w) /\
  bus_reads (trace (snd out)) =
    bus_reads (trace w)
    ++ (if ini
        then [EvI2CRead {| req_port := CONFIG_LV_I2C_TOUCH_PORT cfg;
                           req_slave_addr := current_dev_addr (vars w) mod 256;
                           req_register_addr := FT6X36_GEST_ID_REG (regs cfg) mod 256;
                           req_size := 1 |}]
        else []).
Proof.
  intros out ini reply. subst out ini reply.
  destruct (get_gesture_id_effect P cfg w) as (Hv & _ & Hq & _ & Ht & Hb).
  rewrite Hv, Hq, Ht, Hb.
  split; [ | repeat split].
  destruct (inited (ft6x36_status (vars w))) eqn:Hi.
  - pose proof (get_gesture_id_inited P cfg w Hi) as Hr. cbv zeta in Hr.
    rewrite Hr. reflexivity.
  - rewrite (get_gesture_id_uninit P cfg w Hi). reflexivity.
Qed.

(** ** Coordinates *)

Lemma lor_shift_add (h l : Z) :
  0 <= h -> 0 <= l < 2 ^ 8 -> Z.lor (Z.shiftl h 8) l = 256 * h + l.
Proof.
  intros Hh Hl.
  assert (Hland : Z.land (Z.shiftl h 8) l = 0).
  { apply Z.bits_inj'. intros n Hn. rewrite Z.land_spec, Z.bits_0.
    destruct (Z.ltb_spec n 8) as [Hlt | Hge].
    - rewrite Z.shiftl_spec_low by lia. reflexivity.
    - rewrite (Z.bits_above_log2 l n); [apply andb_false_r | lia | ].
      pose proof (log2_below l 8 ltac:(lia) Hl). lia. }
  rewrite <- (Z.lxor_lor _ _ Hland), <- (Z.add_nocarry_lxor _ _ Hland).
  rewrite Z.shiftl_mul_pow2 by lia. change (2 ^ 8) with 256. lia.
Qed.

(** The decoded coordinate as arithmetic: the low nibble of the high byte
    times 256, plus the low byte. *)
Lemma coord_formula_arith (hi lo : byte) :
  coord_formula hi lo = 256 * (u8 hi mod 16) + u8 lo.
Proof.
  unfold coord_formula, FT6X36_MSB_MASK, FT6X36_LSB_MASK.
  change 15 with (Z.ones 4). change 255 with (Z.ones 8).
  rewrite !Z.land_ones by lia.
  pose proof (u8_range hi) as Hh. pose proof (u8_range lo) as Hl.
  change (2 ^ 4) with 16. change (2 ^ 8) with 256.
  rewrite (Z.mod_small (u8 lo) 256) by lia.
  apply lor_shift_add.
  - apply Z.mod_pos_bound. lia.
  - change (2 ^ 8) with 256. lia.
Qed.

(** X3: with no orientation switch set, a successful single-touch read
    stores X = 256 * (byte1 mod 16) + byte2 and Y = 256 * (byte3 mod 16) +
    byte4; the upper nibble of each high byte (event flag and touch id of
    the chip) never reaches the coordinate, and both are below 4096. *)
Theorem read_coordinate_arithmetic
    (P : platform) (cfg : config) (w : world) (data : lv_indev_data_t) :
  initialized w ->
  reply_err (touch_reply P cfg w) = ESP_OK ->
  u8 (cell (reply_buf (touch_reply P cfg w)) 0) = 1 ->
  CONFIG_LV_FT6X36_SWAPXY cfg = false ->
  CONFIG_LV_FT6X36_INVERT_X cfg = false ->
  CONFIG_LV_FT6X36_INVERT_Y cfg = false ->
  let buf := reply_buf (touch_reply P cfg w) in
  let t' := touch_inputs (vars (snd (ft6x36_read P cfg data w))) in
  last_x t' = 256 * (u8 (cell buf 1) mod 16) + u8 (cell buf 2) /\
  last_y t' = 256 * (u8 (cell buf 3) mod 16) + u8 (cell buf 4) /\
  0 <= last_x t' < 4096 /\ 0 <= last_y t' < 4096.
Proof.
  intros Hi He Hn Hsw Hix Hiy buf t'. subst t'.
  rewrite (read_press P cfg data w Hi (single_touch_ok _ He Hn)).
  cbn [snd vars touch_inputs with_touch_inputs]. fold buf.
  unfold pressed_sample, oriented. rewrite Hsw, Hix, Hiy.
  cbn [fst snd last_x last_y].
  rewrite <- !coord_formula_arith.
  repeat split; apply coord_formula_range.
Qed.

Lemma read_coordinate_arithmetic_witness :
  let cfg := example_cfg true false false false in
  let P := constant_bus (ok_reply [x01; x83; xff; x41; x2c]) in
  let w := running sentinel_touch (Some 0%nat) in
  let t' := touch_inputs (vars (snd (ft6x36_read P cfg (as_data sentinel_touch) w))) in
  (initialized w /\ reply_err (touch_reply P cfg w) = ESP_OK /\
   u8 (cell (reply_buf (touch_reply P cfg w)) 0) = 1) /\
  last_x t' = 1023 /\ last_y t' = 300.
Proof.
  intros cfg P w t'. split; [repeat split | ].
  pose proof (read_coordinate_arithmetic P cfg w (as_data sentinel_touch)
                eq_refl eq_refl eq_refl eq_refl eq_refl eq_refl) as H.
  cbv zeta in H. destruct H as (Hx & Hy & _).
  split; [exact Hx | exact Hy].
Defined.

(** X4: for a display whose resolution is a non-negative [int16_t], the
    inversions never wrap: the stored X is exactly horizontal resolution
    minus the coordinate on the X axis after the swap, and lies between
    resolution - 4095 and the resolution itself (a touch at 0 is reported at
    the resolution, not at resolution - 1); likewise for Y. *)
Theorem inversion_does_not_wrap
    (P : platform) (cfg : config) (w : world) (data : lv_indev_data_t) :
  initialized w ->
  reply_err (touch_reply P cfg w) = ESP_OK ->
  u8 (cell (reply_buf (touch_reply P cfg w)) 0) = 1 ->
  0 <= LV_HOR_RES cfg <= 32767 ->
  0 <= LV_VER_RES cfg <= 32767 ->
  let buf := reply_buf (touch_reply P cfg w) in
  let X := coord_formula (cell buf 1) (cell buf 2) in
  let Y := coord_formula (cell buf 3) (cell buf 4) in
  let x1 := if CONFIG_LV_FT6X36_SWAPXY cfg then Y else X in
  let y1 := if CONFIG_LV_FT6X36_SWAPXY cfg then X else Y in
  let t' := touch_inputs (vars (snd (ft6x36_read P cfg data w))) in
  last_x t' = (if CONFIG_LV_FT6X36_INVERT_X cfg then LV_HOR_RES cfg - x1 else x1) /\
  last_y t' = (if CONFIG_LV_FT6X36_INVERT_Y cfg then LV_VER_RES cfg - y1 else y1) /\
  (CONFIG_LV_FT6X36_INVERT_X cfg = true ->
   LV_HOR_RES cfg - 4095 <= last_x t' <= LV_HOR_RES cfg) /\
  (CONFIG_LV_FT6X36_INVERT_Y cfg = true ->
   LV_VER_RES cfg - 4095 <= last_y t' <= LV_VER_RES cfg).
Proof.
  intros Hi He Hn Hh Hv buf X Y x1 y1 t'. subst t'.
  rewrite (read_press P cfg data w Hi (single_touch_ok _ He Hn)).
  cbn [snd vars touch_inputs with_touch_inputs]. fold buf.
  unfold pressed_sample, oriented. fold X Y.
  pose proof (coord_formula_range (cell buf 1) (cell buf 2)) as HX. fold X in HX.
  pose proof (coord_formula_range (cell buf 3) (cell buf 4)) as HY. fold Y in HY.
  assert (Hx1 : 0 <= x1 < 4096) by (subst x1; destruct (CONFIG_LV_FT6X36_SWAPXY cfg); lia).
  assert (Hy1 : 0 <= y1 < 4096) by (subst y1; destruct (CONFIG_LV_FT6X36_SWAPXY cfg); lia).
  assert (Ex : to_int16 (LV_HOR_RES cfg - x1) = LV_HOR_RES cfg - x1)
    by (apply to_int16_small; lia).
  assert (Ey : to_int16 (LV_VER_RES cfg - y1) = LV_VER_RES cfg - y1)
    by (apply to_int16_small; lia).
  subst x1 y1.
  destruct (CONFIG_LV_FT6X36_SWAPXY cfg), (CONFIG_LV_FT6X36_INVERT_X cfg),
    (CONFIG_LV_FT6X36_INVERT_Y cfg); cbn [fst snd last_x last_y];
    rewrite ?Ex, ?Ey; repeat split; intros; try discriminate; lia.
Qed.

Lemma inversion_does_not_wrap_witness :
  let cfg := example_cfg true false true true in
  let P := constant_bus (ok_reply [x01; x00; x00; x00; xf0]) in
  let w := running sentinel_touch (Some 0%nat) in
  let t' := touch_inputs (vars (snd (ft6x36_read P cfg (as_data sentinel_touch) w))) in
  (initialized w /\ reply_err (touch_reply P cfg w) = ESP_OK /\
   u8 (cell (reply_buf (touch_reply P cfg w)) 0) = 1 /\
   0 <= LV_HOR_RES cfg <= 32767 /\ 0 <= LV_VER_RES cfg <= 32767) /\
  last_x t' = 320 /\ last_y t' = 0.
Proof.
  intros cfg P w t'.
  assert (Hh : 0 <= LV_HOR_RES cfg <= 32767) by (cbn; lia).
  assert (Hv : 0 <= LV_VER_RES cfg <= 32767) by (cbn; lia).
  split; [repeat split; solve [reflexivity | apply Hh | apply Hv] | ].
  pose proof (inversion_does_not_wrap P cfg w (as_data sentinel_touch)
                eq_refl eq_refl eq_refl Hh Hv) as H.
  cbv zeta in H. destruct H as (Hx & Hy & _).
  split; [exact Hx | exact Hy].
Defined.

(** ** The stored state after a poll *)

(** X5: after a poll of an initialised device the stored state is Pressed
    exactly when that poll's read succeeded with a touch-point count of 1;
    the state before the poll plays no part. *)
Theorem pressed_iff_single_touch
    (P : platform) (cfg : config) (w : world) (data : lv_indev_data_t) :
  initialized w ->
  let out := ft6x36_read P cfg data w in
  current_state (touch_inputs (vars (snd out))) = LV_INDEV_STATE_PR <->
  (reply_err (touch_reply P cfg w) = ESP_OK /\
   u8 (cell (reply_buf (touch_reply P cfg w)) 0) = 1).
Proof.
  intros Hi out. subst out. unfold initialized in Hi.
  destruct (read_effect P cfg data w) as (_ & Hv & _).
  rewrite Hv. unfold read_touch. rewrite Hi.
  cbn [with_touch_inputs touch_inputs].
  destruct (single_touch (touch_reply P cfg w)) eqn:Hs.
  - apply single_touch_true in Hs. destruct Hs as [He Hn].
    apply Z.eqb_eq in He, Hn. split; [intros _; split; assumption | reflexivity].
  - split.
    + cbn. discriminate.
    + intros [He Hn]. rewrite (single_touch_ok _ He Hn) in Hs. discriminate.
Qed.

Lemma pressed_iff_single_touch_witness :
  let cfg := example_cfg true false false false in
  let P := constant_bus (ok_reply [x01; x00; x0a; x00; x14]) in
  let w := running sentinel_touch (Some 0%nat) in
  initialized w /\
  current_state (touch_inputs (vars (snd (ft6x36_read P cfg (as_data sentinel_touch) w))))
    = LV_INDEV_STATE_PR.
Proof.
  intros cfg P w. split; [reflexivity | ].
  apply (pressed_iff_single_touch P cfg w (as_data sentinel_touch) eq_refl).
  split; reflexivity.
Defined.

(** X6: a release reports where the finger was.  When a poll that decodes a
    single touch is followed by a poll without one, the second poll returns
    the coordinates of the first with the Released state, and with the queue
    compiled in the channel receives the Pressed sample and then the same
    coordinates as Released. *)
Theorem release_keeps_press_coordinates
    (P : platform) (cfg : config) (w : world) (data1 data2 : lv_indev_data_t) :
  initialized w ->
  reply_err (nth_touch_reply P cfg w 0) = ESP_OK ->
  u8 (cell (reply_buf (nth_touch_reply P cfg w 0)) 0) = 1 ->
  reply_err (nth_touch_reply P cfg w 1) <> ESP_OK \/
    u8 (cell (reply_buf (nth_touch_reply P cfg w 1)) 0) <> 1 ->
  let first := ft6x36_read P cfg data1 w in
  let second := ft6x36_read P cfg data2 (snd first) in
  let seen := pressed_sample cfg (reply_buf (nth_touch_reply P cfg w 0)) in
  snd (fst first) = {| point_x := last_x seen; point_y := last_y seen;
                       state := LV_INDEV_STATE_PR |} /\
  snd (fst second) = {| point_x := last_x seen; point_y := last_y seen;
                        state := LV_INDEV_STATE_REL |} /\
  (CONFIG_LV_FT6X36_COORDINATES_QUEUE cfg = true ->
   publishes (trace (snd second)) =
     publishes (trace w)
     ++ [EvQueueOverwrite (ft6x36_touch_queue_handle (vars w)) seen;
         EvQueueOverwrite (ft6x36_touch_queue_handle (vars w)) (released seen)]).
Proof.
  intros Hi He Hn Hno first second seen.
  assert (H0 : nth_touch_reply P cfg w 0 = touch_reply P cfg w).
  { unfold nth_touch_reply, touch_reply. rewrite Nat.add_0_r. reflexivity. }
  rewrite H0 in He, Hn. subst seen. rewrite H0.
  set (seen := pressed_sample cfg (reply_buf (touch_reply P cfg w))).
  pose proof (read_press P cfg data1 w Hi (single_touch_ok _ He Hn)) as Hr.
  cbv zeta in Hr. fold seen in Hr. fold first in Hr.
  assert (Hi1 : initialized (snd first)) by (rewrite Hr; exact Hi).
  assert (Hs1 : single_touch (touch_reply P cfg (snd first)) = false).
  { apply single_touch_not in Hno. rewrite Hr.
    unfold nth_touch_reply, touch_reply, touch_request in *.
    cbn [snd vars i2c_calls with_touch_inputs current_dev_addr].
    rewrite Nat.add_1_r in Hno. exact Hno. }
  assert (Hc1 : current_state (touch_inputs (vars (snd first))) = LV_INDEV_STATE_PR)
    by (rewrite Hr; reflexivity).
  pose proof (read_release P cfg data2 (snd first) Hi1 Hs1 Hc1) as Hr2.
  fold second in Hr2.
  split; [rewrite Hr; reflexivity | ].
  split; [rewrite Hr2, Hr; reflexivity | ].
  intros Hq. rewrite Hr2. cbn [snd trace]. rewrite Hq.
  change (EvI2CRead ?rq :: ?l) with ([EvI2CRead rq] ++ l).
  rewrite !publishes_app, publishes_bus_error_log.
  rewrite Hr. cbn [snd trace vars with_touch_inputs touch_inputs
                   ft6x36_touch_queue_handle].
  rewrite Hq, publishes_app. cbn. rewrite <- app_assoc. reflexivity.
Qed.

Lemma release_keeps_press_coordinates_witness :
  let cfg := example_cfg true false false false in
  let P := bus_ok_until 6 [x01; x00; x0a; x00; x14] in
  let w := running sentinel_touch (Some 0%nat) in
  let first := ft6x36_read P cfg (as_data sentinel_touch) w in
  let second := ft6x36_read P cfg (as_data sentinel_touch) (snd first) in
  (initialized w /\ reply_err (nth_touch_reply P cfg w 0) = ESP_OK /\
   u8 (cell (reply_buf (nth_touch_reply P cfg w 0)) 0) = 1 /\
   reply_err (nth_touch_reply P cfg w 1) <> ESP_OK) /\
  snd (fst second) = {| point_x := 10; point_y := 20; state := LV_INDEV_STATE_REL |}.
Proof.
  intros cfg P w first second.
  assert (Hfail : reply_err (nth_touch_reply P cfg w 1) <> ESP_OK)
    by (vm_compute; discriminate).
  split; [split; [reflexivity | split; [reflexivity | split; [reflexivity | exact Hfail]]] | ].
  pose proof (release_keeps_press_coordinates P cfg w (as_data sentinel_touch)
                (as_data sentinel_touch) eq_refl eq_refl eq_refl (or_introl Hfail)) as H.
  cbv zeta in H. destruct H as (_ & H & _). exact H.
Defined.

(** ** Invariants over every sequence of calls from start-up *)

Section Sequences.

Variable P : platform.
Variable cfg : config.

Lemma exec_all_snoc (cs : list call) (c : call) (w : world) :
  exec_all P cfg (cs ++ [c]) w = exec P cfg c (exec_all P cfg cs w).
Proof. unfold exec_all. rewrite fold_left_app. reflexivity. Qed.

(** A property of the world at start-up that every call preserves holds
    after every sequence of calls. *)
Lemma exec_all_invariant (Inv : world -> Prop) :
  Inv boot ->
  (forall c w, Inv w -> Inv (exec P cfg c w)) ->
  forall cs, Inv (exec_all P cfg cs boot).
Proof.
  intros H0 Hstep cs. induction cs as [| c cs IH] using rev_ind.
  - exact H0.
  - rewrite exec_all_snoc. apply Hstep, IH.
Qed.

Lemma exec_vars (c : call) (w : world) :
  vars (exec P cfg c w) =
    match c with
    | CallInit dev_addr =>
        {| ft6x36_status := {| inited := true |};
           current_dev_addr := to_uint8 dev_addr;
           touch_inputs := touch_inputs (vars w);
           ft6x36_touch_queue_handle := init_handle P cfg w |}
    | CallRead _ => with_touch_inputs (vars w) (read_touch P cfg w)
    | CallGestureId => vars w
    end.
Proof.
  destruct c as [a | d | ]; cbn [exec].
  - apply (init_effect P cfg a w).
  - apply (read_effect P cfg d w).
  - apply (get_gesture_id_effect P cfg w).
Qed.

Lemma exec_queue_traffic (c : call) (w : world) :
  queue_traffic (trace (exec P cfg c w)) =
    queue_traffic (trace w)
    ++ match c with
       | CallInit _ =>
           if CONFIG_LV_FT6X36_COORDINATES_QUEUE cfg
           then EvQueueCreate FT6X36_TOUCH_QUEUE_ELEMENTS :: init_publish P cfg w
           else []
       | CallRead _ => read_publish P cfg w
       | CallGestureId => []
       end.
Proof.
  destruct c as [a | d | ]; cbn [exec].
  - apply (init_effect P cfg a w).
  - apply (read_effect P cfg d w).
  - rewrite app_nil_r. apply (get_gesture_id_effect P cfg w).
Qed.

Lemma exec_publishes (c : call) (w : world) :
  publishes (trace (exec P cfg c w)) =
    publishes (trace w)
    ++ match c with
       | CallInit _ => init_publish P cfg w
       | CallRead _ => read_publish P cfg w
       | CallGestureId => []
       end.
Proof.
  destruct c as [a | d | ]; cbn [exec].
  - apply (init_effect P cfg a w).
  - apply (read_effect P cfg d w).
  - rewrite app_nil_r. apply (get_gesture_id_effect P cfg w).
Qed.

Lemma exec_bus_reads_uninit (c : call) (w : world) :
  is_init c = false ->
  inited (ft6x36_status (vars w)) = false ->
  bus_reads (trace (exec P cfg c w)) = bus_reads (trace w).
Proof.
  intros Hc Hi. destruct c as [a | d | ]; cbn [exec]; [discriminate Hc | | ].
  - destruct (read_effect P cfg d w) as (_ & _ & _ & _ & _ & _ & Hb).
    rewrite Hb, Hi. apply app_nil_r.
  - destruct (get_gesture_id_effect P cfg w) as (_ & _ & _ & _ & _ & Hb).
    rewrite Hb, Hi. apply app_nil_r.
Qed.

Lemma read_touch_uninit (w : world) :
  inited (ft6x36_status (vars w)) = false -> read_touch P cfg w = touch_inputs (vars w).
Proof. intros Hi. unfold read_touch. rewrite Hi. reflexivity. Qed.

Lemma read_publish_uninit (w : world) :
  inited (ft6x36_status (vars w)) = false -> read_publish P cfg w = [].
Proof. intros Hi. unfold read_publish. rewrite Hi. reflexivity. Qed.

End Sequences.

(** X7: after any sequence of calls from start-up the device is initialised
    exactly when [ft6x06_init] was called at least once (nothing ever clears
    the flag); and as long as it was not called, whatever reads and gesture
    queries were made, the statics are still those of start-up (sample at
    the sentinel, no queue), the bus was never read and the queue API was
    never used. *)
Theorem initialised_iff_init_called
    (P : platform) (cfg : config) (cs : list call) :
  let w := exec_all P cfg cs boot in
  inited (ft6x36_status (vars w)) = existsb is_init cs /\
  (existsb is_init cs = false ->
   vars w = statics_at_boot /\
   bus_reads (trace w) = [] /\
   queue_traffic (trace w) = []).
Proof.
  cbv zeta. induction cs as [| c cs IH] using rev_ind.
  - split; [reflexivity | intros _; repeat split].
  - destruct IH as [IHi IHb].
    rewrite exec_all_snoc, existsb_app. cbn [existsb]. rewrite orb_false_r.
    set (w := exec_all P cfg cs boot) in *.
    split.
    + rewrite exec_vars. destruct c as [a | d | ]; cbn [is_init].
      * rewrite orb_true_r. reflexivity.
      * rewrite orb_false_r. exact IHi.
      * rewrite orb_false_r. exact IHi.
    + intros Hnone. apply orb_false_iff in Hnone. destruct Hnone as [Hcs Hc].
      destruct (IHb Hcs) as (Hv & Hb & Hq).
      assert (Hi : inited (ft6x36_status (vars w)) = false) by (rewrite IHi; exact Hcs).
      rewrite exec_vars, exec_queue_traffic, (exec_bus_reads_uninit P cfg c w Hc Hi).
      rewrite Hb, Hq.
      destruct c as [a | d | ]; [discriminate Hc | | ].
      * rewrite (read_touch_uninit P cfg w Hi), (read_publish_uninit P cfg w Hi).
        rewrite with_touch_inputs_same. repeat split. exact Hv.
      * repeat split. exact Hv.
Qed.

Lemma initialised_iff_init_called_witness :
  let cfg := example_cfg true false false false in
  let P := constant_bus (ok_reply [x01; x00; x0a; x00; x14]) in
  let d := {| point_x := 5; point_y := 7; state := LV_INDEV_STATE_PR |} in
  let w := exec_all P cfg [CallRead d; CallGestureId; CallRead d] boot in
  inited (ft6x36_status (vars w)) = false /\
  vars w = statics_at_boot /\
  bus_reads (trace w) = [] /\
  queue_traffic (trace w) = [].
Proof.
  intros cfg P d w.
  destruct (initialised_iff_init_called P cfg [CallRead d; CallGestureId; CallRead d])
    as [Hi Hrest].
  split; [exact Hi | exact (Hrest eq_refl)].
Defined.

Lemma to_int16_range (z : Z) : int16_range (to_int16 z).
Proof.
  unfold int16_range, to_int16.
  pose proof (Z.mod_pos_bound (z + 32768) 65536 ltac:(lia)). lia.
Qed.

Lemma oriented_int16 (cfg : config) (x y : Z) :
  int16_range x -> int16_range y ->
  int16_range (fst (oriented cfg (x, y))) /\ int16_range (snd (oriented cfg (x, y))).
Proof.
  intros Hx Hy. unfold oriented.
  destruct (CONFIG_LV_FT6X36_SWAPXY cfg), (CONFIG_LV_FT6X36_INVERT_X cfg),
    (CONFIG_LV_FT6X36_INVERT_Y cfg); cbn [fst snd];
    split; solve [assumption | apply to_int16_range].
Qed.

(** Whatever the calls, the replies of the bus, the orientation switches
    and the display resolution, the stored coordinates are always values an
    [int16_t] holds: the integers of the model never leave the C type. *)
Lemma coordinates_stay_int16
    (P : platform) (cfg : config) (cs : list call) :
  let t := touch_inputs (vars (exec_all P cfg cs boot)) in
  int16_range (last_x t) /\ int16_range (last_y t).
Proof.
  cbv zeta.
  apply (exec_all_invariant P cfg
           (fun w => int16_range (last_x (touch_inputs (vars w))) /\
                     int16_range (last_y (touch_inputs (vars w))))).
  - unfold int16_range. cbn. lia.
  - intros c w [Hx Hy]. rewrite exec_vars.
    destruct c as [a | d | ]; cbn [touch_inputs with_touch_inputs];
      [split; assumption | | split; assumption].
    unfold read_touch.
    destruct (inited (ft6x36_status (vars w))); [ | split; assumption].
    destruct (single_touch (touch_reply P cfg w)); [ | split; assumption].
    unfold pressed_sample. cbn [last_x last_y].
    apply oriented_int16; unfold int16_range.
    + pose proof (coord_formula_range (cell (reply_buf (touch_reply P cfg w)) 1)
                    (cell (reply_buf (touch_reply P cfg w)) 2)). lia.
    + pose proof (coord_formula_range (cell (reply_buf (touch_reply P cfg w)) 3)
                    (cell (reply_buf (touch_reply P cfg w)) 4)). lia.
Qed.

(** X8: with both inversions off, after any sequence of calls from start-up
    the stored sample is either still exactly the sentinel (-1, -1, Released)
    or has both coordinates in 0..4095: the "never touched" marker cannot be
    mistaken for a decoded position. *)
Theorem sample_is_sentinel_or_on_grid
    (P : platform) (cfg : config) (cs : list call) :
  CONFIG_LV_FT6X36_INVERT_X cfg = false ->
  CONFIG_LV_FT6X36_INVERT_Y cfg = false ->
  let t := touch_inputs (vars (exec_all P cfg cs boot)) in
  t = sentinel_touch \/
  (0 <= last_x t < 4096 /\ 0 <= last_y t < 4096).
Proof.
  intros Hix Hiy. cbv zeta.
  apply (exec_all_invariant P cfg
           (fun w => touch_inputs (vars w) = sentinel_touch \/
                     (0 <= last_x (touch_inputs (vars w)) < 4096 /\
                      0 <= last_y (touch_inputs (vars w)) < 4096))).
  - left. reflexivity.
  - intros c w Hw. rewrite exec_vars.
    destruct c as [a | d | ]; cbn [touch_inputs with_touch_inputs]; [exact Hw | | exact Hw].
    unfold read_touch.
    destruct (inited (ft6x36_status (vars w))); [ | exact Hw].
    destruct (single_touch (touch_reply P cfg w)).
    + right. unfold pressed_sample, oriented. rewrite Hix, Hiy.
      set (buf := reply_buf (touch_reply P cfg w)).
      pose proof (coord_formula_range (cell buf 1) (cell buf 2)).
      pose proof (coord_formula_range (cell buf 3) (cell buf 4)).
      destruct (CONFIG_LV_FT6X36_SWAPXY cfg); cbn [fst snd last_x last_y];
        split; assumption.
    + destruct Hw as [Hs | Hr].
      * left. rewrite Hs. reflexivity.
      * right. exact Hr.
Qed.

Lemma sample_is_sentinel_or_on_grid_witness :
  let cfg := example_cfg true true false false in
  let P := constant_bus (ok_reply [x01; x00; x0a; x00; x14]) in
  let stored cs := touch_inputs (vars (exec_all P cfg cs boot)) in
  stored [CallRead (as_data sentinel_touch); CallGestureId] = sentinel_touch /\
  (0 <= last_x (stored [CallInit 0x38; CallRead (as_data sentinel_touch)]) < 4096 /\
   0 <= last_y (stored [CallInit 0x38; CallRead (as_data sentinel_touch)]) < 4096).
Proof.
  intros cfg P stored. split; [reflexivity | ].
  destruct (sample_is_sentinel_or_on_grid P cfg
              [CallInit 0x38; CallRead (as_data sentinel_touch)] eq_refl eq_refl)
    as [Hs | Hr].
  - vm_compute in Hs. discriminate Hs.
  - exact Hr.
Defined.

(** ** The notification channel *)

Lemma last_published_snoc (tr tr' : list event) (e : event) :
  publishes tr' = publishes tr ++ [e] -> last_published tr' = published e.
Proof.
  intros H. unfold last_published. rewrite H, rev_app_distr. reflexivity.
Qed.

Lemma last_published_same (tr tr' : list event) :
  publishes tr' = publishes tr ++ [] -> last_published tr' = last_published tr.
Proof.
  intros H. unfold last_published. rewrite H, app_nil_r. reflexivity.
Qed.

(** X9: the channel follows the stored sample.  After any sequence of calls
    from start-up, if the driver holds a queue handle then the last item it
    handed to the queue API went to that queue and is exactly the sample now
    stored in [touch_inputs]. *)
Theorem channel_holds_stored_sample
    (P : platform) (cfg : config) (cs : list call) (h : nat) :
  let w := exec_all P cfg cs boot in
  ft6x36_touch_queue_handle (vars w) = Some h ->
  last_published (trace w) = Some (Some h, touch_inputs (vars w)).
Proof.
  cbv zeta. revert h.
  apply (exec_all_invariant P cfg
           (fun w =>
              forall h,
                ft6x36_touch_queue_handle (vars w) = Some h ->
                CONFIG_LV_FT6X36_COORDINATES_QUEUE cfg = true /\
                last_published (trace w) = Some (Some h, touch_inputs (vars w)))).
  - intros h Hh. discriminate Hh.
  - intros c w Hw h. rewrite exec_vars.
    pose proof (exec_publishes P cfg c w) as Hp.
    destruct c as [a | d | ].
    + cbn [ft6x36_touch_queue_handle touch_inputs].
      unfold init_handle, init_publish in *.
      destruct (CONFIG_LV_FT6X36_COORDINATES_QUEUE cfg) eqn:Hq.
      * destruct (xQueueCreate_ok P (queue_calls w)); [ | discriminate].
        intros Hh. injection Hh as <-. split; [reflexivity | ].
        rewrite (last_published_snoc _ _ _ Hp). reflexivity.
      * intros Hh. destruct (Hw h Hh) as [Habs _]. discriminate Habs.
    + cbn [ft6x36_touch_queue_handle touch_inputs with_touch_inputs].
      intros Hh. destruct (Hw h Hh) as [Hq Hl]. split; [exact Hq | ].
      unfold read_publish, read_touch, release_publish in *.
      rewrite Hq, Hh in Hp.
      destruct (inited (ft6x36_status (vars w)));
        [ | rewrite (last_published_same _ _ Hp); exact Hl].
      destruct (single_touch (touch_reply P cfg w)).
      * rewrite (last_published_snoc _ _ _ Hp). reflexivity.
      * destruct (current_state (touch_inputs (vars w))) eqn:Hc.
        -- rewrite (last_published_same _ _ Hp), (released_idle _ Hc). exact Hl.
        -- rewrite (last_published_snoc _ _ _ Hp). reflexivity.
    + intros Hh. destruct (Hw h Hh) as [Hq Hl]. split; [exact Hq | ].
      rewrite (last_published_same _ _ Hp). exact Hl.
Qed.

Lemma channel_holds_stored_sample_witness :
  let cfg := example_cfg true false false false in
  let P := bus_ok_until 7 [x01; x00; x0a; x00; x14] in
  let d := as_data sentinel_touch in
  let w := exec_all P cfg [CallInit 0x38; CallRead d; CallGestureId; CallRead d; CallRead d] boot in
  ft6x36_touch_queue_handle (vars w) = Some 0%nat /\
  last_published (trace w) =
    Some (Some 0%nat, {| last_x := 10; last_y := 20; current_state := LV_INDEV_STATE_REL |}).
Proof.
  intros cfg P d w. split; [reflexivity | ].
  exact (channel_holds_stored_sample P cfg
           [CallInit 0x38; CallRead d; CallGestureId; CallRead d; CallRead d]
           0%nat eq_refl).
Defined.

Lemma read_publish_no_queue (P : platform) (cfg : config) (w : world) :
  CONFIG_LV_FT6X36_COORDINATES_QUEUE cfg = false -> read_publish P cfg w = [].
Proof.
  intros Hq. unfold read_publish, release_publish. rewrite Hq.
  destruct (inited (ft6x36_status (vars w))),
    (single_touch (touch_reply P cfg w)),
    (current_state (touch_inputs (vars w))); reflexivity.
Qed.

(** X10: built without the coordinates queue, the driver never touches the
    queue API: after any sequence of calls from start-up no queue was
    created or written and the handle is still [NULL]. *)
Theorem queue_disabled_never_used
    (P : platform) (cfg : config) (cs : list call) :
  CONFIG_LV_FT6X36_COORDINATES_QUEUE cfg = false ->
  let w := exec_all P cfg cs boot in
  queue_traffic (trace w) = [] /\
  ft6x36_touch_queue_handle (vars w) = None.
Proof.
  intros Hq. cbv zeta.
  apply (exec_all_invariant P cfg
           (fun w => queue_traffic (trace w) = [] /\
                     ft6x36_touch_queue_handle (vars w) = None)).
  - split; reflexivity.
  - intros c w [Ht Hh]. rewrite exec_queue_traffic, exec_vars, Ht.
    destruct c as [a | d | ]; cbn [ft6x36_touch_queue_handle with_touch_inputs].
    + unfold init_handle. rewrite Hq. split; [reflexivity | exact Hh].
    + rewrite (read_publish_no_queue P cfg w Hq). split; [reflexivity | exact Hh].
    + split; [reflexivity | exact Hh].
Qed.

Lemma queue_disabled_never_used_witness :
  let cfg := example_cfg false false false false in
  let P := constant_bus (ok_reply [x01; x00; x0a; x00; x14]) in
  let d := as_data sentinel_touch in
  let w := exec_all P cfg [CallInit 0x38; CallRead d; CallRead d] boot in
  CONFIG_LV_FT6X36_COORDINATES_QUEUE cfg = false /\
  current_state (touch_inputs (vars w)) = LV_INDEV_STATE_PR /\
  queue_traffic (trace w) = [].
Proof.
  intros cfg P d w. split; [reflexivity | split; [reflexivity | ]].
  apply (queue_disabled_never_used P cfg [CallInit 0x38; CallRead d; CallRead d] eq_refl).
Defined.

(** ** Bus traffic *)

(** X11: no retries.  A run of [n] polls of an initialised device puts
    exactly [n] reads on the bus, all of them the same five-byte read of the
    touch status register at the stored address, whether the reads succeed
    or fail and whatever they report. *)
Theorem polls_read_bus_once_each
    (P : platform) (cfg : config) (n : nat) :
  forall (data : lv_indev_data_t) (w : world),
    initialized w ->
    let w' := snd (poll P cfg n data w) in
    bus_reads (trace w') =
      bus_reads (trace w) ++ repeat (EvI2CRead (touch_request cfg w)) n /\
    i2c_calls w' = (n + i2c_calls w)%nat /\
    initialized w'.
Proof.
  induction n as [| n IH]; intros data w Hi; cbv zeta.
  - cbn. rewrite app_nil_r. repeat split. exact Hi.
  - rewrite poll_S. cbn [snd].
    destruct (read_effect P cfg data w) as (_ & Hv & Hn & _ & _ & _ & Hb).
    unfold initialized in Hi. rewrite Hi in Hn, Hb.
    set (w1 := snd (ft6x36_read P cfg data w)) in *.
    assert (Hi1 : initialized w1) by (unfold initialized; rewrite Hv; exact Hi).
    assert (Hrq : touch_request cfg w1 = touch_request cfg w)
      by (unfold touch_request; rewrite Hv; reflexivity).
    destruct (IH (snd (fst (ft6x36_read P cfg data w))) w1 Hi1) as (Hb' & Hn' & Hi').
    rewrite Hb', Hn', Hb, Hn, Hrq, <- app_assoc.
    repeat split; [lia | exact Hi'].
Qed.

Lemma polls_read_bus_once_each_witness :
  let cfg := example_cfg true false false false in
  let P := bus_ok_until 6 [x01; x00; x0a; x00; x14] in
  let w := running sentinel_touch (Some 0%nat) in
  let rq := {| req_port := 0; req_slave_addr := 0x38; req_register_addr := 0x02;
               req_size := 5 |} in
  initialized w /\
  bus_reads (trace (snd (poll P cfg 3 (as_data sentinel_touch) w))) =
    [EvI2CRead rq; EvI2CRead rq; EvI2CRead rq].
Proof.
  intros cfg P w rq. split; [reflexivity | ].
  destruct (polls_read_bus_once_each P cfg 3 (as_data sentinel_touch) w eq_refl)
    as (H & _ & _).
  exact H.
Defined.

(** X12: the address given to [ft6x06_init] is the one every later access
    uses.  After [ft6x06_init(dev_addr)], a poll reads five bytes from the
    touch status register, and a gesture query one byte from the gesture
    register, both at address [dev_addr mod 256]. *)
Theorem init_sets_bus_address
    (P : platform) (cfg : config) (dev_addr : Z) (data : lv_indev_data_t) (w : world) :
  let w1 := snd (ft6x06_init P cfg dev_addr w) in
  bus_reads (trace (snd (ft6x36_read P cfg data w1))) =
    bus_reads (trace w1)
    ++ [EvI2CRead {| req_port := CONFIG_LV_I2C_TOUCH_PORT cfg;
                     req_slave_addr := dev_addr mod 256;
                     req_register_addr := FT6X36_TD_STAT_REG (regs cfg);
                     req_size := 5 |}] /\
  bus_reads (trace (snd (ft6x36_get_gesture_id P cfg w1))) =
    bus_reads (trace w1)
    ++ [EvI2CRead {| req_port := CONFIG_LV_I2C_TOUCH_PORT cfg;
                     req_slave_addr := dev_addr mod 256;
                     req_register_addr := FT6X36_GEST_ID_REG (regs cfg) mod 256;
                     req_size := 1 |}].
Proof.
  intros w1.
  destruct (init_effect P cfg dev_addr w) as (Hv & _). fold w1 in Hv.
  destruct (read_effect P cfg data w1) as (_ & _ & _ & _ & _ & _ & Hb).
  destruct (get_gesture_id_effect P cfg w1) as (_ & _ & _ & _ & _ & Hg).
  rewrite Hb, Hg. unfold touch_request, gesture_request. rewrite Hv.
  cbn [ft6x36_status inited current_dev_addr]. unfold to_uint8.
  rewrite Z.mod_mod by lia. split; reflexivity.
Qed.

(** ** Initialisation when the queue cannot be allocated *)

Lemma init_error_logs (P : platform) (cfg : config) (dev_addr : Z) (w : world) :
  let w' := snd (ft6x06_init P cfg dev_addr w) in
  let first := i2c_bus P (i2c_calls w)
                 (diag_request cfg dev_addr (FT6X36_PANEL_ID_REG (regs cfg))) in
  error_logs (trace w') =
    error_logs (trace w)
    ++ (if reply_err first =? ESP_OK then []
        else [EvLog LOG_E "Error reading from device: %s" [1]])
    ++ (if CONFIG_LV_FT6X36_COORDINATES_QUEUE cfg
        then (if xQueueCreate_ok P (queue_calls w) then []
              else [EvLog LOG_E "\tError creating touch input FreeRTOS queue" []])
        else []).
Proof.
  intros w' first. subst w' first. unfold diag_request.
  destruct w as [[[ini] addr t h] c q tr].
  run.
  destruct (reply_err _) as [ | p | p ];
    destruct (CONFIG_LV_FT6X36_COORDINATES_QUEUE cfg);
    try destruct (xQueueCreate_ok P q).
  all: run.
  all: sift_queue; reflexivity.
Qed.

(** X13: a failed queue allocation is logged and nothing more.  With the
    queue compiled in and no memory for it, [ft6x06_init] still leaves the
    device initialised with the address stored, the handle is [NULL],
    nothing is sent, and the error log gains the allocation error as its
    last line. *)
Theorem init_without_heap
    (P : platform) (cfg : config) (dev_addr : Z) (w : world) :
  CONFIG_LV_FT6X36_COORDINATES_QUEUE cfg = true ->
  xQueueCreate_ok P (queue_calls w) = false ->
  let w' := snd (ft6x06_init P cfg dev_addr w) in
  initialized w' /\
  current_dev_addr (vars w') = dev_addr mod 256 /\
  ft6x36_touch_queue_handle (vars w') = None /\
  publishes (trace w') = publishes (trace w) /\
  queue_traffic (trace w') =
    queue_traffic (trace w) ++ [EvQueueCreate FT6X36_TOUCH_QUEUE_ELEMENTS] /\
  (exists earlier,
      error_logs (trace w') =
        earlier ++ [EvLog LOG_E "\tError creating touch input FreeRTOS queue" []]).
Proof.
  intros Hq Hf w'.
  destruct (init_effect P cfg dev_addr w) as (Hv & _ & _ & Hp & Ht & _).
  pose proof (init_error_logs P cfg dev_addr w) as He. cbv zeta in He.
  fold w' in Hv, Hp, Ht, He.
  unfold init_handle, init_publish in *. rewrite Hq, Hf in *.
  unfold initialized. rewrite Hv, Hp, Ht, app_nil_r.
  repeat split.
  eexists. rewrite He, app_assoc. reflexivity.
Qed.

Lemma init_without_heap_witness :
  let cfg := example_cfg true false false false in
  let P := no_heap_bus (ok_reply [x11]) in
  let w' := snd (ft6x06_init P cfg 0x38 boot) in
  (CONFIG_LV_FT6X36_COORDINATES_QUEUE cfg = true /\
   xQueueCreate_ok P (queue_calls boot) = false) /\
  initialized w' /\
  ft6x36_touch_queue_handle (vars w') = None /\
  publishes (trace w') = [].
Proof.
  intros cfg P w'. split; [split; reflexivity | ].
  destruct (init_without_heap P cfg 0x38 boot eq_refl eq_refl)
    as (H1 & _ & H3 & H4 & _).
  split; [exact H1 | split; [exact H3 | exact H4]].
Defined.

(** X14: [ft6x36_read] does not check the queue handle.  After an
    initialisation whose queue allocation failed, a poll that decodes a
    single touch still calls [xQueueOverwrite], passing the [NULL] handle
    together with the decoded sample. *)
Theorem read_after_failed_allocation_uses_null_handle
    (P : platform) (cfg : config) (dev_addr : Z) (data : lv_indev_data_t) (w : world) :
  CONFIG_LV_FT6X36_COORDINATES_QUEUE cfg = true ->
  xQueueCreate_ok P (queue_calls w) = false ->
  let w1 := snd (ft6x06_init P cfg dev_addr w) in
  reply_err (touch_reply P cfg w1) = ESP_OK ->
  u8 (cell (reply_buf (touch_reply P cfg w1)) 0) = 1 ->
  publishes (trace (snd (ft6x36_read P cfg data w1))) =
    publishes (trace w)
    ++ [EvQueueOverwrite None (pressed_sample cfg (reply_buf (touch_reply P cfg w1)))].
Proof.
  intros Hq Hf w1 He Hn.
  destruct (init_effect P cfg dev_addr w) as (Hv & _ & _ & Hp & _).
  fold w1 in Hv, Hp. unfold init_handle, init_publish in *. rewrite Hq, Hf in *.
  destruct (read_effect P cfg data w1) as (_ & _ & _ & _ & Hr & _).
  rewrite Hr, Hp, app_nil_r. unfold read_publish.
  rewrite (single_touch_ok _ He Hn), Hq, Hv. reflexivity.
Qed.

Lemma read_after_failed_allocation_uses_null_handle_witness :
  let cfg := example_cfg true false false false in
  let P := no_heap_bus (ok_reply [x01; x00; x0a; x00; x14]) in
  let w1 := snd (ft6x06_init P cfg 0x38 boot) in
  (CONFIG_LV_FT6X36_COORDINATES_QUEUE cfg = true /\
   xQueueCreate_ok P (queue_calls boot) = false) /\
  publishes (trace (snd (ft6x36_read P cfg (as_data sentinel_touch) w1))) =
    [EvQueueOverwrite None
       {| last_x := 10; last_y := 20; current_state := LV_INDEV_STATE_PR |}].
Proof.
  intros cfg P w1. split; [split; reflexivity | ].
  exact (read_after_failed_allocation_uses_null_handle P cfg 0x38
           (as_data sentinel_touch) boot eq_refl eq_refl eq_refl eq_refl).
Defined.

(** ** Repeated initialisation *)

Lemma queues_created_traffic (tr : list event) :
  queues_created tr = filter is_queue_create (queue_traffic tr).
Proof.
  unfold queues_created, queue_traffic. induction tr as [| e tr IH]; [reflexivity | ].
  destruct e; cbn; rewrite ?IH; reflexivity.
Qed.

Lemma no_queue_created_by_publish (P : platform) (cfg : config) (w : world) :
  filter is_queue_create (init_publish P cfg w) = [] /\
  filter is_queue_create (read_publish P cfg w) = [].
Proof.
  unfold init_publish, read_publish, release_publish.
  split.
  - destruct (CONFIG_LV_FT6X36_COORDINATES_QUEUE cfg),
      (xQueueCreate_ok P (queue_calls w)); reflexivity.
  - destruct (CONFIG_LV_FT6X36_COORDINATES_QUEUE cfg),
      (inited (ft6x36_status (vars w))),
      (single_touch (touch_reply P cfg w)),
      (current_state (touch_inputs (vars w))); reflexivity.
Qed.

(** X15: every call of [ft6x06_init] asks FreeRTOS for a new queue, also
    when the driver already holds one, and no other entry point ever does:
    after any sequence of calls from start-up the number of [xQueueCreate]
    calls is the number of [ft6x06_init] calls when the queue is compiled
    in, and zero otherwise. *)
Theorem every_init_creates_a_queue
    (P : platform) (cfg : config) (cs : list call) :
  List.length (queues_created (trace (exec_all P cfg cs boot))) =
    if CONFIG_LV_FT6X36_COORDINATES_QUEUE cfg
    then List.length (filter is_init cs)
    else 0%nat.
Proof.
  induction cs as [| c cs IH] using rev_ind.
  - destruct (CONFIG_LV_FT6X36_COORDINATES_QUEUE cfg); reflexivity.
  - rewrite exec_all_snoc.
    set (w := exec_all P cfg cs boot) in *.
    rewrite queues_created_traffic, exec_queue_traffic, filter_app,
      <- queues_created_traffic, length_app, IH.
    destruct (no_queue_created_by_publish P cfg w) as [Hi Hr].
    rewrite filter_app, length_app.
    destruct c as [a | d | ]; cbn [is_init filter List.length app].
    + destruct (CONFIG_LV_FT6X36_COORDINATES_QUEUE cfg).
      * cbn [filter is_queue_create]. rewrite Hi. cbn [List.length]. lia.
      * reflexivity.
    + rewrite Hr. cbn [List.length].
      destruct (CONFIG_LV_FT6X36_COORDINATES_QUEUE cfg); lia.
    + destruct (CONFIG_LV_FT6X36_COORDINATES_QUEUE cfg); lia.
Qed.

(** ** Error lines *)

Lemma error_logs_app (l1 l2 : list event) :
  error_logs (l1 ++ l2) = error_logs l1 ++ error_logs l2.
Proof. apply filter_app. Qed.

Lemma error_logs_bus_error_log (r : i2c_reply) : error_logs (bus_error_log r) = bus_error_log r.
Proof. unfold bus_error_log. destruct (reply_err r =? ESP_OK); reflexivity. Qed.

(** X16: what the error log says about a failed read on an initialised
    device.  A poll whose read fails logs one line carrying the status code
    of the bus; a gesture query whose read fails logs one line carrying 1,
    the value of the comparison, whatever the status code was.  Reads that
    succeed log no error line. *)
Theorem error_lines_of_failed_reads
    (P : platform) (cfg : config) (data : lv_indev_data_t) (w : world) :
  initialized w ->
  let poll_err := reply_err (touch_reply P cfg w) in
  let gest_err := reply_err (i2c_bus P (i2c_calls w) (gesture_request cfg w)) in
  error_logs (trace (snd (ft6x36_read P cfg data w))) =
    error_logs (trace w)
    ++ (if poll_err =? ESP_OK then []
        else [EvLog LOG_E "Error talking to touch IC: %s" [poll_err]]) /\
  error_logs (trace (snd (ft6x36_get_gesture_id P cfg w))) =
    error_logs (trace w)
    ++ (if gest_err =? ESP_OK then []
        else [EvLog LOG_E "Error reading from device: %s" [1]]).
Proof.
  intros Hi poll_err gest_err. subst poll_err gest_err. split.
  - fold (bus_error_log (touch_reply P cfg w)).
    destruct (single_touch (touch_reply P cfg w)) eqn:Hs.
    + pose proof (read_press P cfg data w Hi Hs) as Hr. cbv zeta in Hr. rewrite Hr.
      cbn [snd trace]. rewrite error_logs_app.
      apply single_touch_true in Hs. destruct Hs as [He _].
      unfold bus_error_log. rewrite He.
      destruct (CONFIG_LV_FT6X36_COORDINATES_QUEUE cfg); reflexivity.
    + destruct (current_state (touch_inputs (vars w))) eqn:Hc.
      * rewrite (read_idle P cfg data w Hi Hs Hc). cbn [snd trace].
        change (EvI2CRead ?rq :: ?l) with ([EvI2CRead rq] ++ l).
        rewrite !error_logs_app, error_logs_bus_error_log. reflexivity.
      * rewrite (read_release P cfg data w Hi Hs Hc). cbn [snd trace].
        change (EvI2CRead ?rq :: ?l) with ([EvI2CRead rq] ++ l).
        rewrite !error_logs_app, error_logs_bus_error_log.
        destruct (CONFIG_LV_FT6X36_COORDINATES_QUEUE cfg); cbn;
          rewrite ?app_nil_r; reflexivity.
  - pose proof (get_gesture_id_inited P cfg w Hi) as Hr. cbv zeta in Hr. rewrite Hr.
    cbn [snd trace].
    change (EvI2CRead ?rq :: ?l) with ([EvI2CRead rq] ++ l).
    rewrite !error_logs_app.
    destruct (reply_err _ =? ESP_OK); reflexivity.
Qed.

Lemma error_lines_of_failed_reads_witness :
  let cfg := example_cfg true false false false in
  let P := constant_bus {| reply_err := 263; reply_buf := [x5a] |} in
  let w := running sentinel_touch (Some 0%nat) in
  initialized w /\
  error_logs (trace (snd (ft6x36_read P cfg (as_data sentinel_touch) w))) =
    [EvLog LOG_E "Error talking to touch IC: %s" [263]] /\
  error_logs (trace (snd (ft6x36_get_gesture_id P cfg w))) =
    [EvLog LOG_E "Error reading from device: %s" [1]].
Proof.
  intros cfg P w. split; [reflexivity | ].
  exact (error_lines_of_failed_reads P cfg (as_data sentinel_touch) w eq_refl).
Defined.
